(** * Export preparation of TVB datatypes: [ABCExporter]

    A shallow embedding of
    [framework_tvb/tvb/adapters/exporters/abcexporter.py] and the properties
    of its capability filter ([accepts]), its group flattening
    ([_get_all_data_types_arr]), the paired-group linking and manifest
    construction of [prepare_datatypes_for_export], and the reference walk
    [gather_datatypes_for_copy]. *)

From stdpp Require Import base strings pretty list gmap.
From Stdlib Require Import ZArith Ascii.


(** ** Python outcomes *)

(** The exceptions that the modelled code can end in.  [CollaboratorError]
    stands for whatever a function outside this module raises. *)
Inductive exc :=
| IndexError
| AttributeError
| RecursionError
| ExportException (msg : string)
| CollaboratorError (what : string).

(** A call either raises or returns. *)
Inductive res (A : Type) :=
| Raise (e : exc)
| Return (a : A).
Arguments Raise {A} e.
Arguments Return {A} a.

#[global] Instance res_ret : MRet res := λ A a, Return a.
#[global] Instance res_bind : MBind res := λ A B f m,
  match m with
  | Raise e => Raise e
  | Return a => f a
  end.

(** ** Data model *)

(** The provenance row of a datatype: [fk_operation_group] is [None] when the
    operation is not part of a parameter sweep. *)
Record operation := Operation {
  fk_operation_group : option Z;
  view_model_gid : string
}.

(** A stored datatype (index entity).  Classes are identified by name;
    [mro] lists the class of the object followed by its ancestors, so that
    [isinstance] is membership in [mro].  [type_] and [fk_source_gid] are the
    attributes the code probes with [hasattr]: [None] means the attribute is
    absent; a present [fk_source_gid] may still hold Python's [None]. *)
Record entity := Entity {
  mro : list string;
  id_ : Z;
  gid : string;
  type_ : option string;
  fk_source_gid : option (option string);
  fk_from_operation : Z;
  parent_operation : operation
}.

(** A Python value as the exporter sees it: [None] or a datatype object. *)
Inductive pyval :=
| PyNone
| PyObj (e : entity).

#[global] Instance exc_eq_dec : EqDecision exc.
Proof. solve_decision. Defined.
#[global] Instance operation_eq_dec : EqDecision operation.
Proof. solve_decision. Defined.
#[global] Instance entity_eq_dec : EqDecision entity.
Proof. solve_decision. Defined.
#[global] Instance pyval_eq_dec : EqDecision pyval.
Proof. solve_decision. Defined.

(** Attribute access: on [None] it raises [AttributeError]. *)
Definition getattr {A} (f : entity → A) (v : pyval) : res A :=
  match v with
  | PyNone => Raise AttributeError
  | PyObj e => Return (f e)
  end.

(** [getattr(v, name, None)] for an attribute that an object may lack. *)
Definition getattr_opt {A} (f : entity → option A) (v : pyval) : option A :=
  match v with
  | PyNone => None
  | PyObj e => f e
  end.

(** [hasattr(v, name)] and [v.name] for such an attribute. *)
Definition hasattr {A} (f : entity → option A) (v : pyval) : bool :=
  bool_decide (is_Some (getattr_opt f v)).

Definition getattr_dyn {A} (f : entity → option A) (v : pyval) : res A :=
  match getattr_opt f v with
  | None => Raise AttributeError
  | Some a => Return a
  end.

(** [seq[0]] *)
Definition item0 {A} (seq : list A) : res A :=
  match seq with
  | [] => Raise IndexError
  | x :: _ => Return x
  end.

(** [isinstance(v, cls)]. *)
Definition isinstance (v : pyval) (cls : string) : bool :=
  match v with
  | PyNone => false
  | PyObj e => bool_decide (cls ∈ mro e)
  end.

(** ** Collaborators

    The functions that [abcexporter.py] imports: the record store, the H5
    storage layer and [os.path].  Each one is a parameter of the
    development; those that reach the database or the disk may raise. *)
Record World := {
  (** [ProjectService.get_datatypes_from_datatype_group(id)]: the gids of the
      rows of the group, in stored order, or [None]. *)
  get_datatypes_from_datatype_group : Z → res (option (list string));
  (** [tvb.core.entities.load.load_entity_by_gid]. *)
  load_entity_by_gid : string → res pyval;
  (** [h5.load_entity_by_gid]. *)
  h5_load_entity_by_gid : option string → res pyval;
  (** [dao.get_datatypegroup_by_op_group_id]. *)
  get_datatypegroup_by_op_group_id : option Z → res pyval;
  (** [dao.get_datatype_measure_group_from_ts_from_pse(gid, DatatypeMeasureIndex)]. *)
  get_datatype_measure_group_from_ts_from_pse : string → res pyval;
  (** [h5.path_for_stored_index]. *)
  path_for_stored_index : pyval → res string;
  (** [H5File.from_file(path).gather_references()]: pairs of field name and
      referenced gid. *)
  gather_references : string → res (list (string * option string));
  (** [dao.get_operation_by_id]. *)
  get_operation_by_id : Z → res (option operation);
  (** [h5.gather_references_of_view_model(gid, base_dir, only_view_models=True)]. *)
  gather_references_of_view_model : string → string → res (list string * list string);
  (** [h5.determine_filepath(gid, base_dir)]. *)
  determine_filepath : string → string → res string;
  (** [StorageInterface().get_storage_manager(path).remove_metadata(key, check_existence=True)]. *)
  remove_metadata : string → string → res unit;
  (** [os.path.dirname]. *)
  dirname : string → string
}.

(** An exporter variant: what a subclass of [ABCExporter] overrides. *)
Record Exporter := {
  get_supported_types : list string;
  skip_group_datatypes : bool
}.

Definition EXCLUDED_DATATYPES : list string :=
  ["Cortex"; "CortexActivity"; "CapEEGActivity"; "Cap"; "ValueWrapper";
   "SpatioTermporalMask"].

(** ** Capability filter and flattening *)

Section Exporter.
Context (w : World) (self : Exporter).

Definition is_data_a_group (data : pyval) : bool :=
  isinstance data "DataTypeGroup".

Definition _get_effective_data_type (data : pyval) : res pyval :=
  if is_data_a_group data then
    if skip_group_datatypes self then Return PyNone
    else
      group_id ← getattr id_ data;
      data_types ← get_datatypes_from_datatype_group w group_id;
      match data_types with
      | Some (first :: _) => load_entity_by_gid w first
      | _ => Return PyNone
      end
  else Return data.

(** [hasattr(v, "type") and v.type in EXCLUDED_DATATYPES] *)
Definition globally_excluded (v : pyval) : bool :=
  match getattr_opt type_ v with
  | Some t => bool_decide (t ∈ EXCLUDED_DATATYPES)
  | None => false
  end.

Definition accepts (data : pyval) : res bool :=
  effective_data_type ← _get_effective_data_type data;
  if bool_decide (effective_data_type = PyNone) then Return false
  else if globally_excluded effective_data_type then Return false
  else Return (existsb (isinstance effective_data_type) (get_supported_types self)).

(** The loop of [_get_all_data_types_arr]: load each row and append it. *)
Fixpoint load_all (data_types : list string) : res (list pyval) :=
  match data_types with
  | [] => Return []
  | data_type :: rest =>
      entity ← load_entity_by_gid w data_type;
      result ← load_all rest;
      Return (entity :: result)
  end.

Definition _get_all_data_types_arr (data : pyval) : res (list pyval) :=
  if is_data_a_group data then
    group_id ← getattr id_ data;
    data_types ← get_datatypes_from_datatype_group w group_id;
    match data_types with
    | Some (first :: rest) => load_all (first :: rest)
    | _ => Return []
    end
  else Return [data].

End Exporter.

(** ** Stateful part: the reference walk and the manifest *)

(** File operations, in the order they happen. *)
Inductive io_event :=
| OpenH5 (path : string)
| RemoveMetadata (path key : string)
| ReadViewModel (vm_gid base_dir : string).

#[global] Instance io_event_eq_dec : EqDecision io_event.
Proof. solve_decision. Defined.

(** What the calls below change: the list object the caller passes as
    [dt_path_list], and the files touched so far. *)
Record state := State {
  dt_path_list : list string;
  io_log : list io_event
}.

Definition M (A : Type) : Type := state → res A * state.

#[global] Instance M_ret : MRet M := λ A a s, (Return a, s).
#[global] Instance M_bind : MBind M := λ A B f m s,
  match m s with
  | (Raise e, s') => (Raise e, s')
  | (Return a, s') => f a s'
  end.

(** What a run returned, if it returned. *)
Definition fst_res {A} (r : res A * state) : option A :=
  match r.1 with
  | Raise _ => None
  | Return a => Some a
  end.

Definition lift {A} (r : res A) : M A := λ s, (r, s).
Definition raise {A} (e : exc) : M A := λ s, (Raise e, s).
Definition log (ev : io_event) : M unit :=
  λ s, (Return tt, State (dt_path_list s) (io_log s ++ [ev])).
Definition read_dt_path_list : M (list string) :=
  λ s, (Return (dt_path_list s), s).
Definition append_dt_path (p : string) : M unit :=
  λ s, (Return tt, State (dt_path_list s ++ [p]) (io_log s)).

(** [for x in l: body x] *)
Fixpoint for_each {A} (l : list A) (body : A → M unit) : M unit :=
  match l with
  | [] => mret tt
  | x :: l' => body x;; for_each l' body
  end.

(** [for x in l: acc = body x acc] *)
Fixpoint for_fold {A S} (l : list A) (body : A → S → M S) (acc : S) : M S :=
  match l with
  | [] => mret acc
  | x :: l' => acc' ← body x acc; for_fold l' body acc'
  end.

Definition NO_DATA : string := "Could not export a data type group with no data!".

Section Walk.
Context (w : World).

(** [depth] is the number of stack frames the interpreter still grants;
    Python raises [RecursionError] when they are used up. *)
Fixpoint gather_datatypes_for_copy (depth : nat) (data : pyval) : M unit :=
  match depth with
  | O => raise RecursionError
  | S depth =>
      data_path ← lift (path_for_stored_index w data);
      present ← read_dt_path_list;
      (if bool_decide (data_path ∈ present) then mret tt
       else append_dt_path data_path);;
      log (OpenH5 data_path);;
      sub_dt_refs ← lift (gather_references w data_path);
      for_each sub_dt_refs (λ ref,
        match ref.2 with
        | None => mret tt
        | Some ref_gid =>
            (* [if ref_gid:] the empty string is false as well *)
            if bool_decide (ref_gid = "") then mret tt
            else
              dt ← lift (load_entity_by_gid w ref_gid);
              gather_datatypes_for_copy depth dt
        end)
  end.

(** [StorageInterface().get_storage_manager(path).remove_metadata('parent_burst', ...)] *)
Definition strip_parent_burst (path : string) : M unit :=
  log (RemoveMetadata path "parent_burst");;
  lift (remove_metadata w path "parent_burst").

(** Lines 176-178: the time series group that the measures were computed
    from, flattened. *)
Definition paired_time_series (first : pyval) : res (list pyval) :=
  src ← getattr_dyn fk_source_gid first;
  ts ← h5_load_entity_by_gid w src;
  op_group ← getattr (fk_operation_group ∘ parent_operation) ts;
  data_2 ← get_datatypegroup_by_op_group_id w op_group;
  _get_all_data_types_arr w data_2.

(** Lines 181-182: the measure group derived from the time series,
    flattened. *)
Definition derived_measures (first : pyval) : res (list pyval) :=
  first_gid ← getattr gid first;
  data_2 ← get_datatype_measure_group_from_ts_from_pse w first_gid;
  _get_all_data_types_arr w data_2.

(** Lines 172-183: flatten, then put the paired group before or after. *)
Definition link_paired_group (data : pyval) : M (list pyval) :=
  all_datatypes ← lift (_get_all_data_types_arr w data);
  first ← lift (item0 all_datatypes);
  if hasattr fk_source_gid first then
    all_datatypes_2 ← lift (paired_time_series first);
    mret (all_datatypes_2 ++ all_datatypes)
  else
    all_datatypes_2 ← lift (derived_measures first);
    mret (all_datatypes ++ all_datatypes_2).

(** Lines 190-200: the body of the loop over the combined list. *)
Definition add_to_op_file_dict (dt : pyval)
    (op_file_dict : gmap string (list string)) : M (gmap string (list string)) :=
  h5_path ← lift (path_for_stored_index w dt);
  strip_parent_burst h5_path;;
  let op_folder := dirname w h5_path in
  let op_file_dict := <[op_folder := [h5_path]]> op_file_dict in
  op_id ← lift (getattr fk_from_operation dt);
  op ← lift (get_operation_by_id w op_id);
  vm_gid ← lift (match op with
                 | None => Raise AttributeError
                 | Some op => Return (view_model_gid op)
                 end);
  log (ReadViewModel vm_gid (dirname w h5_path));;
  vms ← lift (gather_references_of_view_model w vm_gid (dirname w h5_path));
  let op_file_dict := alter (λ files, files ++ vms.1) op_folder op_file_dict in
  vm_path ← lift (determine_filepath w vm_gid op_folder);
  strip_parent_burst vm_path;;
  mret op_file_dict.

(** Lines 188-202: the manifest of an already linked list. *)
Definition build_op_file_dict (all_datatypes : list pyval)
    : M (list pyval * gmap string (list string)) :=
  op_file_dict ← for_fold all_datatypes add_to_op_file_dict ∅;
  mret (all_datatypes, op_file_dict).

Definition prepare_datatypes_for_export (data : pyval)
    : M (list pyval * gmap string (list string)) :=
  all_datatypes ← link_paired_group data;
  if bool_decide (length all_datatypes = 0) then raise (ExportException NO_DATA)
  else build_op_file_dict all_datatypes.

End Walk.

(** ** Export file names *)

(** What [datetime.now()] gives, down to the second. *)
Record datetime := Datetime {
  year : Z;
  month : Z;
  day : Z;
  hour : Z;
  minute : Z;
  second : Z
}.

(** The character of the last decimal digit of [n]. *)
Definition digit (n : Z) : ascii := ascii_of_N (Z.to_N (48 + n mod 10)).

(** [%m], [%d], [%H] and [%M]: two digits, padded with a zero. *)
Definition two_digits (n : Z) : string :=
  String (digit (n / 10)) (String (digit n) EmptyString).

(** [%Y]: the year with its century, four digits from the year 1000 on. *)
Definition four_digits (n : Z) : string :=
  String (digit (n / 1000)) (String (digit (n / 100)) (two_digits n)).

(** [now.strftime("%Y-%m-%d_%H-%M")] *)
Definition strftime_minute (now : datetime) : string :=
  four_digits (year now) +:+ "-" +:+ two_digits (month now) +:+ "-"
  +:+ two_digits (day now) +:+ "_" +:+ two_digits (hour now) +:+ "-"
  +:+ two_digits (minute now).

(** [data.__class__.__name__]: the first class of the ancestry. *)
Definition class_name (data : pyval) : string :=
  match data with
  | PyNone => "NoneType"
  | PyObj e => default "object" (head (mro e))
  end.

(** [now] stands for the clock read by [datetime.now()]. *)
Definition get_export_file_name (now : datetime) (data : pyval)
    (file_extension : string) : string :=
  let data_type_name := class_name data in
  let date_str := strftime_minute now in
  date_str +:+ "_" +:+ data_type_name +:+ file_extension.

(** [get_export_file_extension] is what the subclass implements. *)
Definition _get_export_file_name (get_export_file_extension : pyval → res string)
    (now : datetime) (data : pyval) : res string :=
  file_ext ← get_export_file_extension data;
  Return (get_export_file_name now data file_ext).

(** A date and time of the calendar, in a year of four digits. *)
Definition on_calendar (now : datetime) : Prop :=
  (1000 ≤ year now ≤ 9999 ∧ 1 ≤ month now ≤ 12 ∧ 1 ≤ day now ≤ 31
   ∧ 0 ≤ hour now < 24 ∧ 0 ≤ minute now < 60 ∧ 0 ≤ second now < 60)%Z.

(** The same minute of the same day. *)
Definition same_minute (a b : datetime) : Prop :=
  year a = year b ∧ month a = month b ∧ day a = day b
  ∧ hour a = hour b ∧ minute a = minute b.

(** ** Notions used to state the properties *)


(** The list of [s'] is the list of [s] with new, pairwise different paths
    added at its end, none of which was in the list of [s]. *)
Definition extends (s s' : state) : Prop :=
  ∃ added,
    dt_path_list s' = dt_path_list s ++ added
    ∧ NoDup added
    ∧ ∀ p, p ∈ added → p ∉ dt_path_list s.

(** A computation that only ever extends the list. *)
Definition grows {A} (m : M A) : Prop := ∀ s, extends s (m s).2.

(** The file operations of one round of the manifest loop on [dt]. *)
Definition record_events (w : World) (dt : pyval) (events : list io_event) : Prop :=
  ∃ h5_path op vm_path,
    path_for_stored_index w dt = Return h5_path
    ∧ (getattr fk_from_operation dt ≫= get_operation_by_id w) = Return (Some op)
    ∧ determine_filepath w (view_model_gid op) (dirname w h5_path) = Return vm_path
    ∧ events = [RemoveMetadata h5_path "parent_burst";
                ReadViewModel (view_model_gid op) (dirname w h5_path);
                RemoveMetadata vm_path "parent_burst"].

(** The file operations the export preparation is made of. *)
Definition is_strip_event (ev : io_event) : Prop :=
  match ev with
  | OpenH5 _ => False
  | RemoveMetadata _ key => key = "parent_burst"
  | ReadViewModel _ _ => True
  end.

(** A computation that leaves [dt_path_list] alone and adds to the log
    only events that satisfy [P]. *)
Definition logs_only {A} (P : io_event → Prop) (m : M A) : Prop :=
  ∀ s, ∃ events,
    (m s).2 = State (dt_path_list s) (io_log s ++ events) ∧ Forall P events.

(** The reference graph of the store: [reaches w data dt] when [dt] is
    [data] or is loaded by following non-empty references from file to
    file, starting at the file of [data]. *)
Inductive reaches (w : World) : pyval → pyval → Prop :=
| reaches_here data : reaches w data data
| reaches_ref data data_path sub_dt_refs name ref_gid dt dt' :
    path_for_stored_index w data = Return data_path →
    gather_references w data_path = Return sub_dt_refs →
    (name, Some ref_gid) ∈ sub_dt_refs →
    ref_gid ≠ "" →
    load_entity_by_gid w ref_gid = Return dt →
    reaches w dt dt' →
    reaches w data dt'.

(** The references below [data] can be followed without an exception and
    end after fewer than [height] steps. *)
Fixpoint walkable (w : World) (height : nat) (data : pyval) : Prop :=
  match height with
  | O => False
  | S height =>
      ∃ data_path sub_dt_refs,
        path_for_stored_index w data = Return data_path
        ∧ gather_references w data_path = Return sub_dt_refs
        ∧ ∀ name ref_gid,
            (name, Some ref_gid) ∈ sub_dt_refs →
            ref_gid ≠ "" →
            ∃ dt, load_entity_by_gid w ref_gid = Return dt ∧ walkable w height dt
  end.

(** A computation that adds to [dt_path_list] only paths that satisfy [Q]. *)
Definition adds_only {A} (Q : string → Prop) (m : M A) : Prop :=
  ∀ s p, p ∈ dt_path_list (m s).2 → p ∈ dt_path_list s ∨ Q p.

(** From [s] to [s'] the log grew by openings of files whose paths are in
    the list of [s']. *)
Definition opened_since (s s' : state) : Prop :=
  ∃ events,
    io_log s' = io_log s ++ events
    ∧ Forall (λ ev, ∃ p, ev = OpenH5 p ∧ p ∈ dt_path_list s') events.

(** A computation that logs nothing but such openings. *)
Definition reads_only {A} (m : M A) : Prop := ∀ s, opened_since s (m s).2.



(** ** Example stores *)

Module Examples.

(** Table lookup by gid or path; an unknown key is a store failure. *)
Fixpoint find_key {A} (tbl : list (string * A)) (k : string) : option A :=
  match tbl with
  | [] => None
  | (k', a) :: tbl' => if String.eqb k k' then Some a else find_key tbl' k
  end.

Definition lookup_or_fail {A} (what : string) (tbl : list (string * A))
    (k : string) : res A :=
  match find_key tbl k with
  | Some a => Return a
  | None => Raise (CollaboratorError what)
  end.

(** The part of a path before its last slash. *)
Fixpoint parent_folder (p : string) : option string :=
  match p with
  | EmptyString => None
  | String c p' =>
      match parent_folder p' with
      | Some head => Some (String c head)
      | None => if Ascii.eqb c "/"%char then Some EmptyString else None
      end
  end.

Definition folder_of (p : string) : string := default EmptyString (parent_folder p).

Definition index_path (v : pyval) : res string :=
  match v with
  | PyNone => Raise AttributeError
  | PyObj e =>
      Return ("/TVB/PROJECTS/demo/" +:+ pretty (fk_from_operation e) +:+ "/"
              +:+ gid e +:+ ".h5")
  end.

Definition DATATYPE := ["DataType"; "HasTraitsIndex"; "object"].

Definition time_series (g : string) (op : Z) : entity :=
  {| mro := "TimeSeriesRegionIndex" :: "TimeSeriesIndex" :: DATATYPE;
     id_ := op; gid := g; type_ := Some "TimeSeriesRegion";
     fk_source_gid := None; fk_from_operation := op;
     parent_operation := Operation (Some 1%Z) ("vm_" +:+ g) |}.

Definition measure (g src : string) (op : Z) : entity :=
  {| mro := "DatatypeMeasureIndex" :: DATATYPE;
     id_ := op; gid := g; type_ := Some "DatatypeMeasure";
     fk_source_gid := Some (Some src); fk_from_operation := op;
     parent_operation := Operation (Some 2%Z) ("vm_" +:+ g) |}.

Definition group (g : string) (i : Z) : entity :=
  {| mro := "DataTypeGroup" :: DATATYPE;
     id_ := i; gid := g; type_ := Some "DataTypeGroup";
     fk_source_gid := None; fk_from_operation := i;
     parent_operation := Operation None ("vm_" +:+ g) |}.

Definition TS0 := time_series "ts0" 10.
Definition TS1 := time_series "ts1" 11.
Definition MEASURE0 := measure "m0" "ts0" 20.
Definition MEASURE1 := measure "m1" "ts1" 21.
Definition TS_GROUP := group "TS" 100.
Definition MEASURE_GROUP := group "MG" 200.
Definition EMPTY_GROUP := group "EG" 300.

Definition entities : list (string * pyval) :=
  [("ts0", PyObj TS0); ("ts1", PyObj TS1);
   ("m0", PyObj MEASURE0); ("m1", PyObj MEASURE1)].

(** A sweep of two time series (operation group 1) with one measure each. *)
Definition sweep : World :=
  {| get_datatypes_from_datatype_group := λ i,
       if bool_decide (i = 100%Z) then Return (Some ["ts0"; "ts1"])
       else if bool_decide (i = 200%Z) then Return (Some ["m0"; "m1"])
       else Return (Some []);
     load_entity_by_gid := lookup_or_fail "load_entity_by_gid" entities;
     h5_load_entity_by_gid := λ g,
       match g with
       | Some g => lookup_or_fail "h5.load_entity_by_gid" entities g
       | None => Return PyNone
       end;
     get_datatypegroup_by_op_group_id := λ og,
       if bool_decide (og = Some 1%Z) then Return (PyObj TS_GROUP)
       else Return PyNone;
     get_datatype_measure_group_from_ts_from_pse := λ g,
       if bool_decide (g = "ts0") then Return (PyObj MEASURE_GROUP)
       else Return PyNone;
     path_for_stored_index := index_path;
     gather_references := λ _, Return [];
     get_operation_by_id := λ i,
       Return (Some (Operation (Some 1%Z) ("vm_" +:+ pretty i)));
     gather_references_of_view_model := λ vm_gid base_dir,
       Return ([base_dir +:+ "/" +:+ vm_gid +:+ ".h5"], []);
     determine_filepath := λ vm_gid base_dir,
       Return (base_dir +:+ "/" +:+ vm_gid +:+ ".h5");
     remove_metadata := λ _ _, Return tt;
     dirname := folder_of |}.

(** The same store, where the loader answers [None] for a gid it does not
    know instead of raising. *)
Definition lenient : World :=
  {| get_datatypes_from_datatype_group := λ i,
       if bool_decide (i = 400%Z) then Return (Some ["ts0"; "gone"])
       else get_datatypes_from_datatype_group sweep i;
     load_entity_by_gid := λ g,
       match find_key entities g with
       | Some v => Return v
       | None => Return PyNone
       end;
     h5_load_entity_by_gid := h5_load_entity_by_gid sweep;
     get_datatypegroup_by_op_group_id := get_datatypegroup_by_op_group_id sweep;
     get_datatype_measure_group_from_ts_from_pse :=
       get_datatype_measure_group_from_ts_from_pse sweep;
     path_for_stored_index := path_for_stored_index sweep;
     gather_references := gather_references sweep;
     get_operation_by_id := get_operation_by_id sweep;
     gather_references_of_view_model := gather_references_of_view_model sweep;
     determine_filepath := determine_filepath sweep;
     remove_metadata := remove_metadata sweep;
     dirname := dirname sweep |}.

(** The same store, where the loader raises for such a gid. *)
Definition strict : World :=
  {| get_datatypes_from_datatype_group :=
       get_datatypes_from_datatype_group lenient;
     load_entity_by_gid := load_entity_by_gid sweep;
     h5_load_entity_by_gid := h5_load_entity_by_gid sweep;
     get_datatypegroup_by_op_group_id := get_datatypegroup_by_op_group_id sweep;
     get_datatype_measure_group_from_ts_from_pse :=
       get_datatype_measure_group_from_ts_from_pse sweep;
     path_for_stored_index := path_for_stored_index sweep;
     gather_references := gather_references sweep;
     get_operation_by_id := get_operation_by_id sweep;
     gather_references_of_view_model := gather_references_of_view_model sweep;
     determine_filepath := determine_filepath sweep;
     remove_metadata := remove_metadata sweep;
     dirname := dirname sweep |}.

Definition STALE_GROUP := group "SG" 400.

(** Two records whose files refer to each other. *)
Definition REC_A := time_series "A" 30.
Definition REC_B := time_series "B" 31.
Definition PATH_A := "/TVB/PROJECTS/demo/30/A.h5".
Definition PATH_B := "/TVB/PROJECTS/demo/31/B.h5".

Definition cycle : World :=
  {| get_datatypes_from_datatype_group := get_datatypes_from_datatype_group sweep;
     load_entity_by_gid :=
       lookup_or_fail "load_entity_by_gid" [("A", PyObj REC_A); ("B", PyObj REC_B)];
     h5_load_entity_by_gid := h5_load_entity_by_gid sweep;
     get_datatypegroup_by_op_group_id := get_datatypegroup_by_op_group_id sweep;
     get_datatype_measure_group_from_ts_from_pse :=
       get_datatype_measure_group_from_ts_from_pse sweep;
     path_for_stored_index := path_for_stored_index sweep;
     gather_references :=
       lookup_or_fail "gather_references"
         [(PATH_A, [("partner", Some "B"); ("surface", None)]);
          (PATH_B, [("partner", Some "A")])];
     get_operation_by_id := get_operation_by_id sweep;
     gather_references_of_view_model := gather_references_of_view_model sweep;
     determine_filepath := determine_filepath sweep;
     remove_metadata := remove_metadata sweep;
     dirname := dirname sweep |}.

(** How often a file was opened. *)
Definition opened (path : string) (s : state) : nat :=
  length (filter (λ ev, ev = OpenH5 path) (io_log s)).

(** A surface of a type that has no export mechanism. *)
Definition CORTEX : entity :=
  {| mro := "SurfaceIndex" :: DATATYPE;
     id_ := 40; gid := "cortex"; type_ := Some "Cortex";
     fk_source_gid := None; fk_from_operation := 40;
     parent_operation := Operation None "vm_cortex" |}.

Definition any_datatype : Exporter :=
  {| get_supported_types := ["DataType"]; skip_group_datatypes := false |}.

Definition any_time_series : Exporter :=
  {| get_supported_types := ["TimeSeriesIndex"]; skip_group_datatypes := false |}.

Definition linked_time_series : Exporter :=
  {| get_supported_types := ["TimeSeriesIndex"]; skip_group_datatypes := true |}.

Definition start : state := State [] [].

(** The manifest of exporting the first measure in [sweep]. *)
Definition FOLDER_20 := "/TVB/PROJECTS/demo/20".

Definition MANIFEST_M0 : gmap string (list string) :=
  <[FOLDER_20 := [FOLDER_20 +:+ "/m0.h5"; FOLDER_20 +:+ "/vm_20.h5"]]>
    (<["/TVB/PROJECTS/demo/11" :=
         ["/TVB/PROJECTS/demo/11/ts1.h5"; "/TVB/PROJECTS/demo/11/vm_11.h5"]]>
       (<["/TVB/PROJECTS/demo/10" :=
            ["/TVB/PROJECTS/demo/10/ts0.h5"; "/TVB/PROJECTS/demo/10/vm_10.h5"]]> ∅)).

End Examples.

(** ** Further example stores *)

Module MoreExamples.
Import Examples.

(** A store with other group rows. *)
Definition with_rows (w : World) (rows : Z → res (option (list string))) : World :=
  {| get_datatypes_from_datatype_group := rows;
     load_entity_by_gid := load_entity_by_gid w;
     h5_load_entity_by_gid := h5_load_entity_by_gid w;
     get_datatypegroup_by_op_group_id := get_datatypegroup_by_op_group_id w;
     get_datatype_measure_group_from_ts_from_pse :=
       get_datatype_measure_group_from_ts_from_pse w;
     path_for_stored_index := path_for_stored_index w;
     gather_references := gather_references w;
     get_operation_by_id := get_operation_by_id w;
     gather_references_of_view_model := gather_references_of_view_model w;
     determine_filepath := determine_filepath w;
     remove_metadata := remove_metadata w;
     dirname := dirname w |}.

(** Group 500 lists a datatype that is gone before one that is there; the
    rows of group 600 cannot be read. *)
Definition orphan_rows (i : Z) : res (option (list string)) :=
  if bool_decide (i = 500%Z) then Return (Some ["gone"; "ts0"])
  else if bool_decide (i = 600%Z) then Raise (CollaboratorError "get_datatypes")
  else get_datatypes_from_datatype_group sweep i.

Definition ORPHAN_GROUP := group "OG" 500.
Definition orphans_strict : World := with_rows strict orphan_rows.
Definition orphans_lenient : World := with_rows lenient orphan_rows.

Definition time_series_and_measures : Exporter :=
  {| get_supported_types := ["DatatypeMeasureIndex"; "TimeSeriesIndex"];
     skip_group_datatypes := false |}.

(** A store with other files: what the loader knows and what each file
    refers to. *)
Definition with_files (w : World) (known : list (string * pyval))
    (refs : list (string * list (string * option string))) : World :=
  {| get_datatypes_from_datatype_group := get_datatypes_from_datatype_group w;
     load_entity_by_gid := lookup_or_fail "load_entity_by_gid" known;
     h5_load_entity_by_gid := h5_load_entity_by_gid w;
     get_datatypegroup_by_op_group_id := get_datatypegroup_by_op_group_id w;
     get_datatype_measure_group_from_ts_from_pse :=
       get_datatype_measure_group_from_ts_from_pse w;
     path_for_stored_index := path_for_stored_index w;
     gather_references := lookup_or_fail "gather_references" refs;
     get_operation_by_id := get_operation_by_id w;
     gather_references_of_view_model := gather_references_of_view_model w;
     determine_filepath := determine_filepath w;
     remove_metadata := remove_metadata w;
     dirname := dirname w |}.

(** A time series on a region mapping and a connectivity, where the region
    mapping refers to the same connectivity. *)
Definition SERIES := time_series "series" 50.
Definition MAPPING := time_series "mapping" 51.
Definition CONNECTIVITY := time_series "conn" 52.
Definition PATH_SERIES := "/TVB/PROJECTS/demo/50/series.h5".
Definition PATH_MAPPING := "/TVB/PROJECTS/demo/51/mapping.h5".
Definition PATH_CONNECTIVITY := "/TVB/PROJECTS/demo/52/conn.h5".

Definition diamond : World :=
  with_files sweep
    [("series", PyObj SERIES); ("mapping", PyObj MAPPING);
     ("conn", PyObj CONNECTIVITY)]
    [(PATH_SERIES, [("region_mapping", Some "mapping"); ("sensors", None);
                    ("connectivity", Some "conn")]);
     (PATH_MAPPING, [("connectivity", Some "conn"); ("surface", Some "")]);
     (PATH_CONNECTIVITY, [])].

(** Measures of a time series that was simulated on its own: its operation
    belongs to no operation group. *)
Definition LONE_SERIES : entity :=
  {| mro := mro TS0; id_ := 60; gid := "lone"; type_ := type_ TS0;
     fk_source_gid := None; fk_from_operation := 60;
     parent_operation := Operation None "vm_lone" |}.
Definition LONE_MEASURE := measure "lm" "lone" 61.

Definition single_run : World :=
  {| get_datatypes_from_datatype_group := get_datatypes_from_datatype_group sweep;
     load_entity_by_gid := load_entity_by_gid sweep;
     h5_load_entity_by_gid := λ g,
       if bool_decide (g = Some "lone") then Return (PyObj LONE_SERIES)
       else h5_load_entity_by_gid sweep g;
     get_datatypegroup_by_op_group_id := get_datatypegroup_by_op_group_id sweep;
     get_datatype_measure_group_from_ts_from_pse :=
       get_datatype_measure_group_from_ts_from_pse sweep;
     path_for_stored_index := path_for_stored_index sweep;
     gather_references := gather_references sweep;
     get_operation_by_id := get_operation_by_id sweep;
     gather_references_of_view_model := gather_references_of_view_model sweep;
     determine_filepath := determine_filepath sweep;
     remove_metadata := remove_metadata sweep;
     dirname := dirname sweep |}.

(** A group of two datatypes that one operation produced, stored in one
    folder. *)
Definition TS0_HISTORY := time_series "ts0h" 10.
Definition PAIR_GROUP := group "PG" 700.

Definition one_folder : World :=
  with_rows
    (with_files sweep (("ts0h", PyObj TS0_HISTORY) :: entities) [])
    (λ i, if bool_decide (i = 700%Z) then Return (Some ["ts0"; "ts0h"])
          else get_datatypes_from_datatype_group sweep i).

Definition MANIFEST_PAIR : gmap string (list string) :=
  <["/TVB/PROJECTS/demo/21" :=
      ["/TVB/PROJECTS/demo/21/m1.h5"; "/TVB/PROJECTS/demo/21/vm_21.h5"]]>
    (<["/TVB/PROJECTS/demo/20" :=
         ["/TVB/PROJECTS/demo/20/m0.h5"; "/TVB/PROJECTS/demo/20/vm_20.h5"]]>
       (<["/TVB/PROJECTS/demo/10" :=
            ["/TVB/PROJECTS/demo/10/ts0h.h5"; "/TVB/PROJECTS/demo/10/vm_10.h5"]]> ∅)).

(** Two readings of the clock in one minute, and one a minute later. *)
Definition MORNING := Datetime 2026 11 3 9 5 12.
Definition MORNING_LATER := Datetime 2026 11 3 9 5 48.
Definition NEXT_MINUTE := Datetime 2026 11 3 9 6 2.

End MoreExamples.

(** ** Reasoning about outcomes *)

Lemma res_bind_Return {A B} (a : A) (k : A → res B) :
  (Return a ≫= k) = k a.
Proof. reflexivity. Qed.

Lemma res_bind_Return_inv {A B} (m : res A) (k : A → res B) (b : B) :
  (m ≫= k) = Return b → ∃ a, m = Return a ∧ k a = Return b.
Proof. destruct m as [e|a]; [discriminate | eauto]. Qed.

Lemma M_bind_unfold {A B} (m : M A) (k : A → M B) (s : state) :
  (m ≫= k) s =
  match m s with
  | (Raise e, s') => (Raise e, s')
  | (Return a, s') => k a s'
  end.
Proof. reflexivity. Qed.

Lemma M_bind_lift {A B} (r : res A) (k : A → M B) (s : state) :
  (lift r ≫= k) s =
  match r with
  | Raise e => (Raise e, s)
  | Return a => k a s
  end.
Proof. rewrite M_bind_unfold. by destruct r. Qed.

Lemma M_bind_Return_inv {A B} (m : M A) (k : A → M B) s b s' :
  (m ≫= k) s = (Return b, s') →
  ∃ a s1, m s = (Return a, s1) ∧ k a s1 = (Return b, s').
Proof.
  rewrite M_bind_unfold. destruct (m s) as [[e|a] s1]; [discriminate | eauto].
Qed.

(** ** The capability filter *)

Section Filter.
Context (w : World) (self : Exporter).

Lemma group_is_object data :
  is_data_a_group data = true → ∃ g, data = PyObj g.
Proof. destruct data; [discriminate | eauto]. Qed.

Lemma effective_of_plain data :
  is_data_a_group data = false → _get_effective_data_type w self data = Return data.
Proof. unfold _get_effective_data_type. by intros ->. Qed.

Lemma accepts_of_effective data effective_data_type :
  _get_effective_data_type w self data = Return effective_data_type →
  accepts w self data =
    Return (if bool_decide (effective_data_type = PyNone) then false
            else if globally_excluded effective_data_type then false
            else existsb (isinstance effective_data_type) (get_supported_types self)).
Proof.
  intros He. unfold accepts. rewrite He, res_bind_Return.
  by repeat case_match.
Qed.

(** C5: a datatype whose effective type carries an excluded type name is
    refused, whatever types the exporter supports. *)
Theorem accepts_excluded data effective_data_type t :
  _get_effective_data_type w self data = Return effective_data_type →
  getattr_opt type_ effective_data_type = Some t →
  t ∈ EXCLUDED_DATATYPES →
  accepts w self data = Return false.
Proof.
  intros He Ht Hin. rewrite (accepts_of_effective _ _ He).
  unfold globally_excluded. rewrite Ht, (bool_decide_eq_true_2 _ Hin).
  by case_bool_decide.
Qed.

(** C6: a group that is skipped, or that has no rows, has no effective type;
    [accepts] then returns [False] and does not raise. *)
Theorem accepts_unresolved g :
  is_data_a_group (PyObj g) = true →
  skip_group_datatypes self = true
  ∨ get_datatypes_from_datatype_group w (id_ g) = Return None
  ∨ get_datatypes_from_datatype_group w (id_ g) = Return (Some []) →
  _get_effective_data_type w self (PyObj g) = Return PyNone
  ∧ accepts w self (PyObj g) = Return false.
Proof.
  intros Hg Hcase.
  assert (_get_effective_data_type w self (PyObj g) = Return PyNone) as He.
  { unfold _get_effective_data_type. rewrite Hg.
    destruct Hcase as [-> | [Hrows | Hrows]]; [done | |];
      destruct (skip_group_datatypes self); try done;
      simpl; by rewrite Hrows. }
  split; [done |]. by rewrite (accepts_of_effective _ _ He).
Qed.

(** C9: with an effective type that is not excluded, [accepts] returns the
    [isinstance] test against the supported types, and [isinstance] holds
    for the class of the object and for each of its ancestors. *)
Theorem accepts_supported data e :
  _get_effective_data_type w self data = Return (PyObj e) →
  globally_excluded (PyObj e) = false →
  ∃ b, accepts w self data = Return b
       ∧ (b = true ↔ ∃ supported_type, supported_type ∈ get_supported_types self
                                       ∧ isinstance (PyObj e) supported_type = true)
       ∧ (∀ cls, isinstance (PyObj e) cls = true ↔ cls ∈ mro e).
Proof.
  intros He Hex. eexists. split; [| split].
  - rewrite (accepts_of_effective _ _ He), Hex. by rewrite bool_decide_eq_false_2.
  - rewrite existsb_exists. by setoid_rewrite list_elem_of_In.
  - intros cls. simpl. apply bool_decide_eq_true.
Qed.

(** C8, as the code has it: when the exporter does not skip groups, a group
    is accepted exactly when the datatype loaded for its first row is. *)
Theorem accepts_group_representative g first rest m1 :
  skip_group_datatypes self = false →
  is_data_a_group (PyObj g) = true →
  get_datatypes_from_datatype_group w (id_ g) = Return (Some (first :: rest)) →
  load_entity_by_gid w first = Return m1 →
  is_data_a_group m1 = false →
  accepts w self (PyObj g) = accepts w self m1.
Proof.
  intros Hskip Hg Hrows Hload Hplain.
  assert (_get_effective_data_type w self (PyObj g) = Return m1) as He.
  { unfold _get_effective_data_type. rewrite Hg, Hskip. simpl. by rewrite Hrows. }
  by rewrite (accepts_of_effective _ _ He),
    (accepts_of_effective _ _ (effective_of_plain _ Hplain)).
Qed.

End Filter.

(** ** Flattening *)

Section Flatten.
Context (w : World).

Lemma load_all_Forall2 rows result :
  load_all w rows = Return result ↔
  Forall2 (λ row entity, load_entity_by_gid w row = Return entity) rows result.
Proof.
  revert result. induction rows as [|row rows IH]; intros result; simpl.
  - split.
    + intros [= <-]. constructor.
    + by intros ->%Forall2_nil_inv_l.
  - split.
    + intros (entity & Hload & Hrest)%res_bind_Return_inv.
      apply res_bind_Return_inv in Hrest as (tail & Htail & [= <-]).
      constructor; [done | by apply IH].
    + intros (entity & tail & Hload & Htail & ->)%Forall2_cons_inv_l.
      apply IH in Htail. by rewrite Hload, res_bind_Return, Htail.
Qed.

Lemma flatten_group g rows :
  is_data_a_group (PyObj g) = true →
  get_datatypes_from_datatype_group w (id_ g) = Return rows →
  _get_all_data_types_arr w (PyObj g) = load_all w (default [] rows).
Proof.
  intros Hg Hrows. unfold _get_all_data_types_arr. rewrite Hg. simpl.
  rewrite Hrows. by destruct rows as [[|]|].
Qed.

(** C7, as the code has it: a datatype that is not a group flattens to
    itself; a group flattens to what the loader gives for each of its rows,
    in stored order and without filtering, so the call returns exactly when
    every row loads, and the result is free of [None] when the loader gives
    [None] for no row.  A group without rows flattens to the empty list. *)
Theorem flatten_spec data :
  (is_data_a_group data = false → _get_all_data_types_arr w data = Return [data])
  ∧ (∀ g rows,
       data = PyObj g →
       is_data_a_group data = true →
       get_datatypes_from_datatype_group w (id_ g) = Return rows →
       (∀ result,
          _get_all_data_types_arr w data = Return result ↔
          Forall2 (λ row entity, load_entity_by_gid w row = Return entity)
                  (default [] rows) result)
       ∧ (default [] rows = [] → _get_all_data_types_arr w data = Return [])
       ∧ (∀ result,
            (∀ row, row ∈ default [] rows → load_entity_by_gid w row ≠ Return PyNone) →
            _get_all_data_types_arr w data = Return result →
            PyNone ∉ result)).
Proof.
  split.
  { unfold _get_all_data_types_arr. by intros ->. }
  intros g rows -> Hg Hrows. rewrite (flatten_group _ _ Hg Hrows).
  split; [| split].
  - intros result. apply load_all_Forall2.
  - by intros ->.
  - intros result Hsome Hres Hnone. apply load_all_Forall2 in Hres.
    apply list_elem_of_lookup in Hnone as [i Hi].
    destruct (Forall2_lookup_r _ _ _ _ _ Hres Hi) as (row & Hrow & Hload).
    eapply Hsome; [| done]. by eapply list_elem_of_lookup_2.
Qed.

End Flatten.

(** ** Linking and the manifest *)

Lemma lift_Return_inv {A} (r : res A) s a s' :
  lift r s = (Return a, s') → r = Return a ∧ s' = s.
Proof. by intros [= -> ->]. Qed.

Tactic Notation "bind_inv" hyp(H) "as" ident(a) ident(Ha) :=
  let s := fresh "s" in
  apply M_bind_Return_inv in H as (a & s & Ha & H);
  try (apply lift_Return_inv in Ha as [Ha ->]).

Section Manifest.
Context (w : World).

Lemma link_of_flattened data first rest s :
  _get_all_data_types_arr w data = Return (first :: rest) →
  link_paired_group w data s =
    if hasattr fk_source_gid first then
      match paired_time_series w first with
      | Raise e => (Raise e, s)
      | Return all_datatypes_2 => (Return (all_datatypes_2 ++ first :: rest), s)
      end
    else
      match derived_measures w first with
      | Raise e => (Raise e, s)
      | Return all_datatypes_2 => (Return ((first :: rest) ++ all_datatypes_2), s)
      end.
Proof.
  intros Hflat. unfold link_paired_group.
  rewrite M_bind_lift, Hflat. simpl. rewrite M_bind_lift.
  destruct (hasattr fk_source_gid first); rewrite M_bind_lift; by case_match.
Qed.

(** The emptiness test of line 185 never fires: what linking returns has at
    least one element, and linking touches no file. *)
Lemma link_returns_nonempty data s all_datatypes s' :
  link_paired_group w data s = (Return all_datatypes, s') →
  all_datatypes ≠ [] ∧ s' = s.
Proof.
  unfold link_paired_group. intros H.
  bind_inv H as flattened Hflat. bind_inv H as first Hfirst.
  destruct flattened as [|first' rest]; [discriminate |].
  destruct (hasattr fk_source_gid first); bind_inv H as paired Hpaired;
    injection H as <- <-.
  - split; [| done]. by destruct paired.
  - done.
Qed.


Lemma prepare_of_linked data s all_datatypes :
  link_paired_group w data s = (Return all_datatypes, s) →
  all_datatypes ≠ [] →
  prepare_datatypes_for_export w data s = build_op_file_dict w all_datatypes s.
Proof.
  intros Hlink Hne. unfold prepare_datatypes_for_export.
  rewrite M_bind_unfold, Hlink. rewrite bool_decide_eq_false_2; [done |].
  by destruct all_datatypes.
Qed.

(** C3, what the code does: with an empty flattening the call ends at
    [all_datatypes[0]] with [IndexError], before any file is touched, and
    not with the [ExportException] of line 186. *)
Theorem prepare_empty_flattening data s :
  _get_all_data_types_arr w data = Return [] →
  prepare_datatypes_for_export w data s = (Raise IndexError, s).
Proof.
  intros Hflat. unfold prepare_datatypes_for_export, link_paired_group.
  by rewrite M_bind_unfold, M_bind_lift, Hflat.
Qed.

End Manifest.

Section FolderLists.
Context (w : World).

Lemma add_to_op_file_dict_inv dt op_file_dict s op_file_dict' s' :
  add_to_op_file_dict w dt op_file_dict s = (Return op_file_dict', s') →
  ∃ h5_path op vms,
    path_for_stored_index w dt = Return h5_path
    ∧ (getattr fk_from_operation dt ≫= get_operation_by_id w) = Return (Some op)
    ∧ gather_references_of_view_model w (view_model_gid op) (dirname w h5_path)
      = Return vms
    ∧ op_file_dict' = <[dirname w h5_path := h5_path :: vms.1]> op_file_dict.
Proof.
  unfold add_to_op_file_dict. intros H.
  bind_inv H as h5_path Hpath. bind_inv H as u1 Hstrip1. simpl in H.
  bind_inv H as op_id Hid. bind_inv H as op Hop.
  bind_inv H as vm_gid Hgid. destruct op as [op|]; [| discriminate].
  injection Hgid as <-.
  bind_inv H as u2 Hlog. bind_inv H as vms Hvms.
  bind_inv H as vm_path Hvm. bind_inv H as u3 Hstrip2. injection H as <- _.
  exists h5_path, op, vms. split_and!; try done.
  - by rewrite Hid, res_bind_Return.
  - apply map_eq. intros k. destruct (decide (dirname w h5_path = k)) as [<-|Hne].
    + by rewrite lookup_alter_eq, !lookup_insert_eq.
    + by rewrite lookup_alter_ne, !lookup_insert_ne.
Qed.



End FolderLists.

(** ** The reference walk *)

Lemma extends_refl s : extends s s.
Proof.
  exists []. rewrite app_nil_r. split_and!; [done | constructor | set_solver].
Qed.

Lemma extends_trans s1 s2 s3 : extends s1 s2 → extends s2 s3 → extends s1 s3.
Proof.
  intros (added1 & E1 & N1 & D1) (added2 & E2 & N2 & D2).
  exists (added1 ++ added2). split_and!.
  - by rewrite E2, E1, <-(assoc_L (++)).
  - apply NoDup_app. split_and!; [done | | done].
    intros p Hp1 Hp2. apply (D2 p Hp2). rewrite E1. set_solver.
  - intros p [Hp | Hp]%elem_of_app; [by apply D1 |].
    intros Hin. apply (D2 p Hp). rewrite E1. set_solver.
Qed.

Lemma extends_NoDup s s' :
  extends s s' → NoDup (dt_path_list s) → NoDup (dt_path_list s').
Proof.
  intros (added & -> & Hnd & Hdisj) Hs. apply NoDup_app. split_and!; try done.
  intros p Hp Hadd. by apply (Hdisj p).
Qed.

Lemma grows_bind {A B} (m : M A) (k : A → M B) :
  grows m → (∀ a, grows (k a)) → grows (m ≫= k).
Proof.
  intros Hm Hk s. rewrite M_bind_unfold. specialize (Hm s).
  destruct (m s) as [[e|a] s1]; [done |].
  eapply extends_trans; [done | apply Hk].
Qed.

Lemma grows_ret {A} (a : A) : grows (mret a).
Proof. intros s. apply extends_refl. Qed.

Lemma grows_lift {A} (r : res A) : grows (lift r).
Proof. intros s. apply extends_refl. Qed.

Lemma grows_raise {A} (e : exc) : grows (@raise A e).
Proof. intros s. apply extends_refl. Qed.

Lemma grows_log ev : grows (log ev).
Proof.
  intros s. exists []. simpl. rewrite app_nil_r.
  split_and!; [done | constructor | set_solver].
Qed.

(** Lines 160-161: the membership test before the append. *)
Lemma grows_append_if_absent {B} data_path (k : M B) :
  grows k →
  grows (present ← read_dt_path_list;
         (if bool_decide (data_path ∈ present) then mret tt
          else append_dt_path data_path);;
         k).
Proof.
  intros Hk s. rewrite M_bind_unfold. simpl. case_bool_decide as Hin.
  - apply Hk.
  - rewrite M_bind_unfold. simpl.
    eapply extends_trans; [| apply Hk].
    exists [data_path]. simpl. split_and!; [done | apply NoDup_singleton |].
    by intros p ->%list_elem_of_singleton.
Qed.

Lemma grows_for_each {A} (l : list A) (body : A → M unit) :
  (∀ x, grows (body x)) → grows (for_each l body).
Proof.
  intros Hbody. induction l as [|x l IH]; simpl.
  - apply grows_ret.
  - apply grows_bind; [apply Hbody | by intros _].
Qed.

Lemma for_each_raises {A} (l : list A) (body : A → M unit) x :
  x ∈ l →
  (∀ s, ∃ e, (body x s).1 = Raise e) →
  ∀ s, ∃ e, (for_each l body s).1 = Raise e.
Proof.
  intros Hin Hx. induction l as [|y l IH]; [by apply elem_of_nil in Hin |].
  intros s. simpl. rewrite M_bind_unfold.
  apply elem_of_cons in Hin as [<- | Hin].
  - destruct (Hx s) as [e He]. destruct (body x s) as [[e'|u] s1]; [by eauto |].
    discriminate.
  - destruct (body y s) as [[e'|u] s1]; [by eauto |]. by apply IH.
Qed.

Section WalkFacts.
Context (w : World).

Lemma gather_grows depth data : grows (gather_datatypes_for_copy w depth data).
Proof.
  revert data. induction depth as [|depth IH]; intros data; simpl.
  - apply grows_raise.
  - apply grows_bind; [apply grows_lift | intros data_path].
    apply grows_append_if_absent.
    apply grows_bind; [apply grows_log | intros _].
    apply grows_bind; [apply grows_lift | intros sub_dt_refs].
    apply grows_for_each. intros [name [ref_gid|]]; simpl; [| apply grows_ret].
    case_bool_decide; [apply grows_ret |].
    apply grows_bind; [apply grows_lift | intros dt]. apply IH.
Qed.

(** C10: whatever the outcome of the call, the list it was given comes
    back as a prefix of the list it leaves, the paths added behind it are
    pairwise different and were not in the list before, and a list without
    duplicates stays without duplicates. *)
Theorem gather_append_only depth data s :
  ∃ added,
    dt_path_list (gather_datatypes_for_copy w depth data s).2
      = dt_path_list s ++ added
    ∧ NoDup added
    ∧ (∀ p, p ∈ added → p ∉ dt_path_list s)
    ∧ (NoDup (dt_path_list s) →
       NoDup (dt_path_list (gather_datatypes_for_copy w depth data s).2)).
Proof.
  pose proof (gather_grows depth data s) as Hgrow.
  destruct Hgrow as (added & E & Hnd & Hdisj) eqn:Hx. clear Hx.
  exists added. split_and!; try done.
  apply extends_NoDup. by exists added.
Qed.

(** One step around a reference: a datatype whose file refers to a datatype
    on which the walk raises at depth [depth] raises at depth [S depth]. *)
Lemma gather_raises_through depth data data_path sub_dt_refs name ref_gid dt :
  path_for_stored_index w data = Return data_path →
  gather_references w data_path = Return sub_dt_refs →
  (name, Some ref_gid) ∈ sub_dt_refs →
  ref_gid ≠ "" →
  load_entity_by_gid w ref_gid = Return dt →
  (∀ s, ∃ e, (gather_datatypes_for_copy w depth dt s).1 = Raise e) →
  ∀ s, ∃ e, (gather_datatypes_for_copy w (S depth) data s).1 = Raise e.
Proof.
  intros Hpath Hrefs Hin Hgid Hload Hdt s. simpl.
  rewrite M_bind_lift, Hpath, M_bind_unfold. simpl.
  case_bool_decide; do 2 (rewrite M_bind_unfold; simpl);
    rewrite M_bind_lift, Hrefs;
    (eapply for_each_raises; [exact Hin |]); intros s1; simpl;
    rewrite (bool_decide_eq_false_2 _ Hgid), M_bind_lift, Hload; apply Hdt.
Qed.

Section Cycle.
Context (A B : pyval) (path_a path_b : string)
        (refs_a refs_b : list (string * option string))
        (name_a name_b gid_a gid_b : string).
Hypothesis (A_path : path_for_stored_index w A = Return path_a).
Hypothesis (B_path : path_for_stored_index w B = Return path_b).
Hypothesis (A_refs : gather_references w path_a = Return refs_a).
Hypothesis (B_refs : gather_references w path_b = Return refs_b).
Hypothesis (A_to_B : (name_a, Some gid_b) ∈ refs_a).
Hypothesis (B_to_A : (name_b, Some gid_a) ∈ refs_b).
Hypothesis (gid_a_set : gid_a ≠ "").
Hypothesis (gid_b_set : gid_b ≠ "").
Hypothesis (A_loads : load_entity_by_gid w gid_a = Return A).
Hypothesis (B_loads : load_entity_by_gid w gid_b = Return B).

Lemma gather_cycle_raises depth :
  (∀ s, ∃ e, (gather_datatypes_for_copy w depth A s).1 = Raise e)
  ∧ (∀ s, ∃ e, (gather_datatypes_for_copy w depth B s).1 = Raise e).
Proof.
  induction depth as [|depth [IHA IHB]].
  - split; intros s; by exists RecursionError.
  - split.
    + by eapply gather_raises_through.
    + by eapply gather_raises_through.
Qed.

(** C2, as the code has it: on two datatypes that refer to each other the
    walk has no guard against the cycle and never returns; whatever depth
    the interpreter grants, the call ends in an exception, with the paths
    of the list still pairwise different. *)
Theorem gather_cycle_never_returns depth s :
  (∃ e, (gather_datatypes_for_copy w depth A s).1 = Raise e)
  ∧ (NoDup (dt_path_list s) →
     NoDup (dt_path_list (gather_datatypes_for_copy w depth A s).2)).
Proof.
  split.
  - apply gather_cycle_raises.
  - apply extends_NoDup, gather_grows.
Qed.

End Cycle.

End WalkFacts.

(** ** The properties on the example stores *)

Import Examples.

Lemma accepts_excluded_witness :
  accepts sweep any_datatype (PyObj CORTEX) = Return false.
Proof.
  apply (accepts_excluded sweep any_datatype (PyObj CORTEX) (PyObj CORTEX) "Cortex").
  - reflexivity.
  - reflexivity.
  - unfold EXCLUDED_DATATYPES. apply list_elem_of_here.
Defined.

Lemma accepts_unresolved_witness :
  _get_effective_data_type sweep any_time_series (PyObj EMPTY_GROUP) = Return PyNone
  ∧ accepts sweep any_time_series (PyObj EMPTY_GROUP) = Return false.
Proof.
  apply (accepts_unresolved sweep any_time_series EMPTY_GROUP).
  - reflexivity.
  - right. right. reflexivity.
Defined.

Lemma accepts_supported_witness :
  ∃ b, accepts sweep any_time_series (PyObj TS0) = Return b
       ∧ (b = true ↔ ∃ supported_type,
             supported_type ∈ get_supported_types any_time_series
             ∧ isinstance (PyObj TS0) supported_type = true)
       ∧ (∀ cls, isinstance (PyObj TS0) cls = true ↔ cls ∈ mro TS0).
Proof.
  apply (accepts_supported sweep any_time_series (PyObj TS0) TS0).
  - reflexivity.
  - reflexivity.
Defined.

Lemma accepts_group_representative_witness :
  accepts sweep any_time_series (PyObj TS_GROUP)
  = accepts sweep any_time_series (PyObj TS0).
Proof.
  apply (accepts_group_representative sweep any_time_series TS_GROUP "ts0" ["ts1"]).
  - reflexivity.
  - reflexivity.
  - reflexivity.
  - reflexivity.
  - reflexivity.
Defined.

(** An exporter that skips groups refuses the group of two time series and
    accepts its first member. *)
Lemma skipped_group_differs_from_member :
  is_data_a_group (PyObj TS_GROUP) = true
  ∧ get_datatypes_from_datatype_group sweep (id_ TS_GROUP) = Return (Some ["ts0"; "ts1"])
  ∧ load_entity_by_gid sweep "ts0" = Return (PyObj TS0)
  ∧ accepts sweep linked_time_series (PyObj TS_GROUP) = Return false
  ∧ accepts sweep linked_time_series (PyObj TS0) = Return true.
Proof. by split_and!. Qed.

Lemma flatten_spec_witness :
  _get_all_data_types_arr sweep (PyObj TS0) = Return [PyObj TS0]
  ∧ _get_all_data_types_arr sweep (PyObj TS_GROUP) = Return [PyObj TS0; PyObj TS1]
  ∧ _get_all_data_types_arr sweep (PyObj EMPTY_GROUP) = Return [].
Proof.
  split; [| split].
  - apply (flatten_spec sweep (PyObj TS0)). reflexivity.
  - apply (proj2 (flatten_spec sweep (PyObj TS_GROUP)) TS_GROUP (Some ["ts0"; "ts1"])).
    + reflexivity.
    + reflexivity.
    + reflexivity.
    + repeat constructor.
  - apply (proj2 (flatten_spec sweep (PyObj EMPTY_GROUP)) EMPTY_GROUP (Some [])).
    + reflexivity.
    + reflexivity.
    + reflexivity.
    + reflexivity.
Defined.

(** A group with a row whose datatype is gone: where the loader answers
    [None] the flattening holds [None]; where it raises, so does the
    flattening. *)
Lemma flatten_keeps_unresolved_row :
  is_data_a_group (PyObj STALE_GROUP) = true
  ∧ (∃ result, _get_all_data_types_arr lenient (PyObj STALE_GROUP) = Return result
               ∧ PyNone ∈ result)
  ∧ _get_all_data_types_arr strict (PyObj STALE_GROUP)
    = Raise (CollaboratorError "load_entity_by_gid").
Proof.
  split_and!; [done | | done].
  exists [PyObj TS0; PyNone]. split; [done |]. apply list_elem_of_further, list_elem_of_here.
Qed.

(** The export of either group of the sweep returns, with the time series
    before the measures. *)
Lemma sweep_export_returns :
  (fst <$> fst_res (prepare_datatypes_for_export sweep (PyObj MEASURE_GROUP) start))
  = Some [PyObj TS0; PyObj TS1; PyObj MEASURE0; PyObj MEASURE1]
  ∧ (fst <$> fst_res (prepare_datatypes_for_export sweep (PyObj TS_GROUP) start))
    = Some [PyObj TS0; PyObj TS1; PyObj MEASURE0; PyObj MEASURE1].
Proof. split; vm_compute; reflexivity. Qed.

Lemma prepare_empty_flattening_witness :
  _get_all_data_types_arr sweep (PyObj EMPTY_GROUP) = Return []
  ∧ prepare_datatypes_for_export sweep (PyObj EMPTY_GROUP) start
    = (Raise IndexError, start).
Proof.
  split; [reflexivity |].
  apply (prepare_empty_flattening sweep (PyObj EMPTY_GROUP) start). reflexivity.
Defined.

Lemma sweep_manifest_of_measure :
  prepare_datatypes_for_export sweep (PyObj MEASURE0) start
  = (Return ([PyObj TS0; PyObj TS1; PyObj MEASURE0], MANIFEST_M0),
     (prepare_datatypes_for_export sweep (PyObj MEASURE0) start).2).
Proof. vm_compute. reflexivity. Qed.

Lemma gather_append_only_witness :
  ∃ added,
    dt_path_list (gather_datatypes_for_copy cycle 5 (PyObj REC_A) (State [PATH_B] [])).2
      = [PATH_B] ++ added
    ∧ NoDup added
    ∧ (∀ p, p ∈ added → p ∉ [PATH_B])
    ∧ (NoDup [PATH_B] →
       NoDup (dt_path_list
                (gather_datatypes_for_copy cycle 5 (PyObj REC_A) (State [PATH_B] [])).2)).
Proof. exact (gather_append_only cycle 5 (PyObj REC_A) (State [PATH_B] [])). Defined.

Lemma cycle_has_partner_refs :
  ("partner", Some "B") ∈ [("partner", Some "B"); ("surface", @None string)]
  ∧ ("partner", Some "A") ∈ [("partner", Some "A")].
Proof. split; apply list_elem_of_here. Qed.

Lemma gather_cycle_never_returns_witness :
  (∃ e, (gather_datatypes_for_copy cycle 7 (PyObj REC_A) start).1 = Raise e)
  ∧ (NoDup (dt_path_list start) →
     NoDup (dt_path_list (gather_datatypes_for_copy cycle 7 (PyObj REC_A) start).2)).
Proof.
  apply (gather_cycle_never_returns cycle (PyObj REC_A) (PyObj REC_B) PATH_A PATH_B
           [("partner", Some "B"); ("surface", None)] [("partner", Some "A")]
           "partner" "partner" "A" "B").
  - reflexivity.
  - reflexivity.
  - reflexivity.
  - reflexivity.
  - apply cycle_has_partner_refs.
  - apply cycle_has_partner_refs.
  - discriminate.
  - discriminate.
  - reflexivity.
  - reflexivity.
Defined.

(** On the two datatypes that refer to each other no depth lets the walk
    return; with six frames it opens the file of A three times before the
    interpreter gives up. *)
Lemma cycle_walk_does_not_return :
  (¬ ∃ depth s',
       gather_datatypes_for_copy cycle depth (PyObj REC_A) start = (Return tt, s')
       ∧ opened PATH_A s' = 1 ∧ opened PATH_B s' = 1)
  ∧ (gather_datatypes_for_copy cycle 6 (PyObj REC_A) start).1 = Raise RecursionError
  ∧ opened PATH_A (gather_datatypes_for_copy cycle 6 (PyObj REC_A) start).2 = 3.
Proof.
  split_and!; [| done | done].
  intros (depth & s' & Hrun & _).
  destruct (gather_cycle_raises cycle (PyObj REC_A) (PyObj REC_B) PATH_A PATH_B
              [("partner", Some "B"); ("surface", None)] [("partner", Some "A")]
              "partner" "partner" "A" "B" eq_refl eq_refl eq_refl eq_refl
              (proj1 cycle_has_partner_refs) (proj2 cycle_has_partner_refs)
              ltac:(discriminate) ltac:(discriminate) eq_refl eq_refl depth)
    as [HA _].
  destruct (HA start) as [e He]. rewrite Hrun in He. discriminate.
Qed.


(** ** Further properties of the capability filter and of flattening *)

Section FilterFacts.
Context (w : World).

Lemma effective_depends_on_skip self self' data :
  skip_group_datatypes self = skip_group_datatypes self' →
  _get_effective_data_type w self data = _get_effective_data_type w self' data.
Proof. unfold _get_effective_data_type. by intros ->. Qed.

(** [accepts] raises only where the store does: the datatype is a group that
    is not skipped, and either its rows could not be read or its first row
    could not be loaded.  On a datatype that is not a group it always
    returns. *)
Theorem accepts_raise_origin self data e :
  accepts w self data = Raise e →
  ∃ g, data = PyObj g
       ∧ is_data_a_group data = true
       ∧ skip_group_datatypes self = false
       ∧ (get_datatypes_from_datatype_group w (id_ g) = Raise e
          ∨ ∃ first rest,
              get_datatypes_from_datatype_group w (id_ g) = Return (Some (first :: rest))
              ∧ load_entity_by_gid w first = Raise e).
Proof.
  unfold accepts, _get_effective_data_type.
  destruct (is_data_a_group data) eqn:Hg.
  - destruct (group_is_object _ Hg) as [g ->].
    destruct (skip_group_datatypes self); [discriminate |]. simpl.
    destruct (get_datatypes_from_datatype_group w (id_ g)) as [e'|rows] eqn:Hrows.
    + intros [= ->]. exists g. by eauto 10.
    + simpl. destruct rows as [[|first rest]|]; try (simpl; by repeat case_match).
      destruct (load_entity_by_gid w first) as [e'|v] eqn:Hload.
      * intros [= ->]. exists g. split_and!; try done. right. by eauto.
      * simpl. by repeat case_match.
  - simpl. by repeat case_match.
Qed.

(** A group whose first row loads to [None] is refused, without an
    exception, whatever the other rows are. *)
Theorem accepts_dangling_first_member self g first rest :
  skip_group_datatypes self = false →
  is_data_a_group (PyObj g) = true →
  get_datatypes_from_datatype_group w (id_ g) = Return (Some (first :: rest)) →
  load_entity_by_gid w first = Return PyNone →
  accepts w self (PyObj g) = Return false.
Proof.
  intros Hskip Hg Hrows Hload.
  rewrite (accepts_of_effective w self _ PyNone); [done |].
  unfold _get_effective_data_type. rewrite Hg, Hskip. simpl. by rewrite Hrows.
Qed.

(** Supporting more types never loses a datatype: an exporter that treats
    groups alike and supports at least the same types accepts whatever the
    other accepts. *)
Theorem accepts_monotone self self' data :
  skip_group_datatypes self = skip_group_datatypes self' →
  get_supported_types self ⊆ get_supported_types self' →
  accepts w self data = Return true →
  accepts w self' data = Return true.
Proof.
  intros Hskip Hsub. unfold accepts.
  rewrite (effective_depends_on_skip _ _ _ Hskip).
  destruct (_get_effective_data_type w self' data) as [e|v]; [done |]. simpl.
  repeat case_match; try done. intros [= Hex]. f_equal.
  apply existsb_exists in Hex as (c & Hc & Hinst). apply existsb_exists.
  exists c. split; [| done]. apply list_elem_of_In, Hsub. by apply list_elem_of_In.
Qed.

(** What [accepts] judges is the head of what the export flattens: when the
    flattening returns and groups are not skipped, the effective datatype
    is its first element, or [None] when it is empty. *)
Theorem effective_is_head_of_flattening self data flattened :
  skip_group_datatypes self = false →
  _get_all_data_types_arr w data = Return flattened →
  _get_effective_data_type w self data = Return (default PyNone (head flattened)).
Proof.
  intros Hskip. unfold _get_all_data_types_arr, _get_effective_data_type.
  destruct (is_data_a_group data) eqn:Hg; [| by intros [= <-]].
  rewrite Hskip. destruct (group_is_object _ Hg) as [g ->]. simpl.
  destruct (get_datatypes_from_datatype_group w (id_ g)) as [e'|rows]; [done |].
  simpl. destruct rows as [[|first rest]|]; try by intros [= <-].
  intros Hall. apply (load_all_Forall2 w (first :: rest)) in Hall.
  by apply Forall2_cons_inv_l in Hall as (entity & others & -> & _ & ->).
Qed.

(** Flattening raises only where the store does: the rows of the group
    could not be read, or some row could not be loaded after all rows
    before it were. *)
Theorem flatten_raise_origin data e :
  _get_all_data_types_arr w data = Raise e →
  ∃ g, data = PyObj g
       ∧ is_data_a_group data = true
       ∧ (get_datatypes_from_datatype_group w (id_ g) = Raise e
          ∨ ∃ before row after,
              get_datatypes_from_datatype_group w (id_ g)
              = Return (Some (before ++ row :: after))
              ∧ Forall (λ r, ∃ entity, load_entity_by_gid w r = Return entity) before
              ∧ load_entity_by_gid w row = Raise e).
Proof.
  intros Hflat. destruct (is_data_a_group data) eqn:Hg;
    [| unfold _get_all_data_types_arr in Hflat; by rewrite Hg in Hflat].
  destruct (group_is_object _ Hg) as [g ->]. exists g. split_and!; try done.
  destruct (get_datatypes_from_datatype_group w (id_ g)) as [e'|rows] eqn:Hrows.
  { left. unfold _get_all_data_types_arr in Hflat. rewrite Hg in Hflat.
    simpl in Hflat. rewrite Hrows in Hflat. by injection Hflat as ->. }
  right. rewrite (flatten_group _ _ _ Hg Hrows) in Hflat.
  assert (∃ before row after,
            default [] rows = before ++ row :: after
            ∧ Forall (λ r, ∃ entity, load_entity_by_gid w r = Return entity) before
            ∧ load_entity_by_gid w row = Raise e) as (before & row & after & Hsplit & ? & ?).
  { clear Hrows. induction (default [] rows) as [|r l IH]; [done |].
    simpl in Hflat. destruct (load_entity_by_gid w r) as [e'|v] eqn:Hload.
    - injection Hflat as ->. by exists [], r, l.
    - simpl in Hflat. destruct (load_all w l) as [e'|vs] eqn:Hl; [| done].
      injection Hflat as ->. destruct (IH eq_refl) as (before & row & after & -> & ? & ?).
      exists (r :: before), row, after. split_and!; try done. constructor; eauto. }
  exists before, row, after. split_and!; try done.
  destruct rows as [rows|]; simpl in Hsplit; [by rewrite Hsplit |].
  by destruct before.
Qed.

End FilterFacts.

(** ** Further properties of linking and of the manifest *)

Lemma for_fold_app {A S} (l1 l2 : list A) (body : A → S → M S) acc s :
  for_fold (l1 ++ l2) body acc s
  = (acc' ← for_fold l1 body acc; for_fold l2 body acc') s.
Proof.
  revert acc s. induction l1 as [|x l1 IH]; intros acc s; [done |].
  simpl. rewrite !M_bind_unfold. destruct (body x acc s) as [[e|acc1] s1]; [done |].
  by rewrite IH, M_bind_unfold.
Qed.

Lemma for_fold_raises {A S} (l : list A) (body : A → S → M S) x :
  x ∈ l →
  (∀ acc s, ∃ e, (body x acc s).1 = Raise e) →
  ∀ acc s, ∃ e, (for_fold l body acc s).1 = Raise e.
Proof.
  intros Hin Hx. induction l as [|y l IH]; [by apply elem_of_nil in Hin |].
  intros acc s. simpl. rewrite M_bind_unfold.
  apply elem_of_cons in Hin as [<- | Hin].
  - destruct (Hx acc s) as [e He]. destruct (body x acc s) as [[e'|u] s1]; [by eauto |].
    discriminate.
  - destruct (body y acc s) as [[e'|u] s1]; [by eauto |]. by apply IH.
Qed.

Section ManifestFacts.
Context (w : World).

Lemma prepare_is_link_then_build data s :
  prepare_datatypes_for_export w data s
  = (link_paired_group w data ≫= build_op_file_dict w) s.
Proof.
  unfold prepare_datatypes_for_export. rewrite !M_bind_unfold.
  destruct (link_paired_group w data s) as [[e|all_datatypes] s1] eqn:Hlink; [done |].
  apply link_returns_nonempty in Hlink as [Hne _].
  rewrite bool_decide_eq_false_2; [done |]. by destruct all_datatypes.
Qed.

(** The guard of lines 185-186 is dead: what linking returns is never
    empty, so preparing an export is linking followed by the manifest loop
    and the [ExportException] of the guard is never raised by it. *)
Theorem prepare_guard_is_dead data s :
  (∀ all_datatypes s', link_paired_group w data s = (Return all_datatypes, s') →
                       all_datatypes ≠ [])
  ∧ prepare_datatypes_for_export w data s
    = (link_paired_group w data ≫= build_op_file_dict w) s.
Proof.
  split; [| apply prepare_is_link_then_build].
  intros all_datatypes s' Hlink. by apply link_returns_nonempty in Hlink as [? _].
Qed.

Lemma add_to_None_raises e op_file_dict s :
  path_for_stored_index w PyNone = Raise e →
  add_to_op_file_dict w PyNone op_file_dict s = (Raise e, s).
Proof. intros Hnone. unfold add_to_op_file_dict. by rewrite M_bind_lift, Hnone. Qed.

(** A time series for which the store finds no measure group: the lookup
    answers [None], flattening [None] gives the list that holds [None], and
    so the linked list ends with a [None] entry.  Where the index path of
    [None] cannot be computed the preparation then always fails. *)
Theorem link_without_measure_group data first rest s :
  _get_all_data_types_arr w data = Return (PyObj first :: rest) →
  fk_source_gid first = None →
  get_datatype_measure_group_from_ts_from_pse w (gid first) = Return PyNone →
  link_paired_group w data s = (Return ((PyObj first :: rest) ++ [PyNone]), s)
  ∧ (∀ e, path_for_stored_index w PyNone = Raise e →
          ∃ e', (prepare_datatypes_for_export w data s).1 = Raise e').
Proof.
  intros Hflat Hattr Hnone.
  assert (link_paired_group w data s = (Return ((PyObj first :: rest) ++ [PyNone]), s))
    as Hlink.
  { rewrite (link_of_flattened _ _ _ _ s Hflat). unfold hasattr, derived_measures.
    simpl. by rewrite Hattr, Hnone. }
  split; [done |]. intros e He.
  rewrite prepare_is_link_then_build, M_bind_unfold, Hlink. unfold build_op_file_dict.
  rewrite M_bind_unfold.
  destruct (for_fold_raises ((PyObj first :: rest) ++ [PyNone])
              (add_to_op_file_dict w) PyNone) with (acc := (∅ : gmap string (list string)))
              (s := s) as [e' He'].
  - set_solver.
  - intros acc s1. exists e. by rewrite (add_to_None_raises e).
  - exists e'. destruct (for_fold _ _ _ s) as [[?|?] ?]; simpl in *; congruence.
Qed.

(** Measures whose time series belongs to no group the store can find: the
    linked list starts with a [None] entry, and where the index path of
    [None] cannot be computed the preparation fails there, before any file
    is touched. *)
Theorem link_without_time_series_group data first rest src ts s :
  _get_all_data_types_arr w data = Return (PyObj first :: rest) →
  fk_source_gid first = Some src →
  h5_load_entity_by_gid w src = Return (PyObj ts) →
  get_datatypegroup_by_op_group_id w (fk_operation_group (parent_operation ts))
  = Return PyNone →
  link_paired_group w data s = (Return (PyNone :: PyObj first :: rest), s)
  ∧ (∀ e, path_for_stored_index w PyNone = Raise e →
          prepare_datatypes_for_export w data s = (Raise e, s)).
Proof.
  intros Hflat Hattr Hts Hnone.
  assert (link_paired_group w data s = (Return (PyNone :: PyObj first :: rest), s))
    as Hlink.
  { rewrite (link_of_flattened _ _ _ _ s Hflat).
    unfold hasattr, paired_time_series, getattr_dyn. simpl.
    rewrite Hattr. simpl. rewrite Hts. simpl. by rewrite Hnone. }
  split; [done |]. intros e He.
  rewrite prepare_is_link_then_build, M_bind_unfold, Hlink. unfold build_op_file_dict.
  rewrite M_bind_unfold. simpl. by rewrite M_bind_unfold, (add_to_None_raises e).
Qed.

End ManifestFacts.

Lemma logs_only_ret {A} P (a : A) : logs_only P (mret a).
Proof. intros [l evs]. exists []. simpl. by rewrite app_nil_r. Qed.

Lemma logs_only_lift {A} P (r : res A) : logs_only P (lift r).
Proof. intros [l evs]. exists []. simpl. by rewrite app_nil_r. Qed.

Lemma logs_only_raise {A} P (e : exc) : logs_only P (@raise A e).
Proof. intros [l evs]. exists []. simpl. by rewrite app_nil_r. Qed.

Lemma logs_only_log (P : io_event → Prop) ev : P ev → logs_only P (log ev).
Proof. intros Hev s. exists [ev]. split; [done |]. by constructor. Qed.

Lemma logs_only_bind {A B} P (m : M A) (k : A → M B) :
  logs_only P m → (∀ a, logs_only P (k a)) → logs_only P (m ≫= k).
Proof.
  intros Hm Hk s. rewrite M_bind_unfold. destruct (Hm s) as (ev1 & Hs1 & HP1).
  destruct (m s) as [[e|a] s1]; simpl in Hs1; subst s1; [by exists ev1 |].
  destruct (Hk a (State (dt_path_list s) (io_log s ++ ev1))) as (ev2 & Hs2 & HP2).
  exists (ev1 ++ ev2). split; [| by apply Forall_app].
  rewrite Hs2. simpl. by rewrite (assoc_L (++)).
Qed.

Lemma logs_only_for_fold {A S} P (l : list A) (body : A → S → M S) acc :
  (∀ x acc, logs_only P (body x acc)) → logs_only P (for_fold l body acc).
Proof.
  intros Hbody. revert acc. induction l as [|x l IH]; intros acc; simpl.
  - apply logs_only_ret.
  - apply logs_only_bind; [apply Hbody | apply IH].
Qed.

Section ManifestShape.
Context (w : World).

Lemma strip_parent_burst_inv path s u s' :
  strip_parent_burst w path s = (Return u, s') →
  remove_metadata w path "parent_burst" = Return tt
  ∧ s' = State (dt_path_list s) (io_log s ++ [RemoveMetadata path "parent_burst"]).
Proof.
  unfold strip_parent_burst. rewrite M_bind_unfold. simpl.
  intros [= -> <-]. by destruct u.
Qed.

Lemma add_to_op_file_dict_run_inv dt op_file_dict s op_file_dict' s' :
  add_to_op_file_dict w dt op_file_dict s = (Return op_file_dict', s') →
  ∃ h5_path op vms vm_path,
    path_for_stored_index w dt = Return h5_path
    ∧ (getattr fk_from_operation dt ≫= get_operation_by_id w) = Return (Some op)
    ∧ gather_references_of_view_model w (view_model_gid op) (dirname w h5_path)
      = Return vms
    ∧ determine_filepath w (view_model_gid op) (dirname w h5_path) = Return vm_path
    ∧ remove_metadata w h5_path "parent_burst" = Return tt
    ∧ remove_metadata w vm_path "parent_burst" = Return tt
    ∧ op_file_dict' = <[dirname w h5_path := h5_path :: vms.1]> op_file_dict
    ∧ s' = State (dt_path_list s)
             (io_log s ++ [RemoveMetadata h5_path "parent_burst";
                           ReadViewModel (view_model_gid op) (dirname w h5_path);
                           RemoveMetadata vm_path "parent_burst"]).
Proof.
  intros H.
  destruct (add_to_op_file_dict_inv _ _ _ _ _ _ H) as (h5_path & op & vms & Hp & Hop & Hvms & ->).
  unfold add_to_op_file_dict in H.
  bind_inv H as h5_path' Hpath. rewrite Hp in Hpath. injection Hpath as <-.
  bind_inv H as u1 Hrm1. destruct u1.
  simpl in H. bind_inv H as op_id Hid. bind_inv H as op' Hop'.
  rewrite Hid, res_bind_Return, Hop' in Hop. injection Hop as ->.
  bind_inv H as vm_gid Hgid. injection Hgid as <-.
  bind_inv H as u2 Hlog. clear Hlog.
  bind_inv H as vms' Hvms'. bind_inv H as vm_path Hvm.
  bind_inv H as u3 Hrm2. destruct u3.
  injection H as _ <-.
  exists h5_path, op, vms, vm_path. split_and!; try done.
  - by rewrite Hid, res_bind_Return.
  - simpl. f_equal. by rewrite <-!app_assoc.
Qed.

Lemma prepare_Return_inv data s all_datatypes op_file_dict s' :
  prepare_datatypes_for_export w data s = (Return (all_datatypes, op_file_dict), s') →
  ∃ s0, for_fold all_datatypes (add_to_op_file_dict w) ∅ s0 = (Return op_file_dict, s')
        ∧ s0 = s.
Proof.
  rewrite prepare_is_link_then_build. intros H.
  bind_inv H as linked Hlink. apply link_returns_nonempty in Hlink as [_ ->].
  unfold build_op_file_dict in H. bind_inv H as d Hloop. injection H as <- <- <-.
  by exists s.
Qed.

End ManifestShape.

Section ManifestTheorems.
Context (w : World).

Lemma for_fold_folders l op_file_dict s op_file_dict' s' :
  for_fold l (add_to_op_file_dict w) op_file_dict s = (Return op_file_dict', s') →
  ∃ paths,
    Forall2 (λ dt h5_path, path_for_stored_index w dt = Return h5_path) l paths
    ∧ dom op_file_dict' = dom op_file_dict ∪ list_to_set (dirname w <$> paths).
Proof.
  revert op_file_dict s. induction l as [|dt l IH]; intros op_file_dict s H.
  - injection H as <- _. exists []. split; [constructor |].
    simpl. by rewrite (right_id_L ∅ (∪)).
  - simpl in H. bind_inv H as acc Hadd.
    apply add_to_op_file_dict_inv in Hadd as (h5_path & op & vms & Hp & _ & _ & ->).
    apply IH in H as (paths & Hpaths & Hdom).
    exists (h5_path :: paths). split; [by constructor |].
    rewrite Hdom, dom_insert_L, fmap_cons, list_to_set_cons.
    by rewrite (comm_L (∪) {[dirname w h5_path]}), (assoc_L (∪)).
Qed.

(** The folders of the manifest are exactly the folders of the files of the
    linked datatypes. *)
Theorem manifest_folders data s all_datatypes op_file_dict s' :
  prepare_datatypes_for_export w data s = (Return (all_datatypes, op_file_dict), s') →
  ∃ paths,
    Forall2 (λ dt h5_path, path_for_stored_index w dt = Return h5_path)
            all_datatypes paths
    ∧ dom op_file_dict = list_to_set (dirname w <$> paths).
Proof.
  intros (s0 & Hloop & ->)%prepare_Return_inv.
  apply for_fold_folders in Hloop as (paths & Hpaths & Hdom).
  exists paths. split; [done |]. by rewrite Hdom, dom_empty_L, (left_id_L ∅ (∪)).
Qed.

Lemma for_fold_other_folders l op_folder op_file_dict s op_file_dict' s' :
  for_fold l (add_to_op_file_dict w) op_file_dict s = (Return op_file_dict', s') →
  (∀ dt h5_path, dt ∈ l → path_for_stored_index w dt = Return h5_path →
                 dirname w h5_path ≠ op_folder) →
  op_file_dict' !! op_folder = op_file_dict !! op_folder.
Proof.
  revert op_file_dict s. induction l as [|dt l IH]; intros op_file_dict s H Hother.
  - by injection H as <- _.
  - simpl in H. bind_inv H as acc Hadd.
    apply add_to_op_file_dict_inv in Hadd as (h5_path & op & vms & Hp & _ & _ & ->).
    rewrite (IH _ _ H).
    + apply lookup_insert_ne. apply (Hother dt); [apply list_elem_of_here | done].
    + intros dt' h5_path' Hin. apply Hother. by apply list_elem_of_further.
Qed.

(** Datatypes stored in one folder do not add up: the folder list is that
    of the last of them in the linked list, its file and the view model
    files reported for it, whatever came before. *)
Theorem manifest_last_record_wins data s before dt after op_file_dict s' h5_path :
  prepare_datatypes_for_export w data s
  = (Return (before ++ dt :: after, op_file_dict), s') →
  path_for_stored_index w dt = Return h5_path →
  (∀ dt' h5_path', dt' ∈ after → path_for_stored_index w dt' = Return h5_path' →
                   dirname w h5_path' ≠ dirname w h5_path) →
  ∃ op vms,
    (getattr fk_from_operation dt ≫= get_operation_by_id w) = Return (Some op)
    ∧ gather_references_of_view_model w (view_model_gid op) (dirname w h5_path)
      = Return vms
    ∧ op_file_dict !! dirname w h5_path = Some (h5_path :: vms.1).
Proof.
  intros (s0 & Hloop & ->)%prepare_Return_inv Hp Hlast.
  rewrite for_fold_app in Hloop. bind_inv Hloop as d1 Hbefore. simpl in Hloop.
  bind_inv Hloop as d2 Hadd.
  apply add_to_op_file_dict_inv in Hadd as (h5_path' & op & vms & Hp' & Hop & Hvms & ->).
  rewrite Hp in Hp'. injection Hp' as <-.
  exists op, vms. split_and!; try done.
  rewrite (for_fold_other_folders _ _ _ _ _ _ Hloop Hlast). apply lookup_insert_eq.
Qed.

Lemma for_fold_events l op_file_dict s op_file_dict' s' :
  for_fold l (add_to_op_file_dict w) op_file_dict s = (Return op_file_dict', s') →
  ∃ rounds,
    Forall2 (record_events w) l rounds
    ∧ Forall (λ dt, ∃ h5_path,
                path_for_stored_index w dt = Return h5_path
                ∧ remove_metadata w h5_path "parent_burst" = Return tt) l
    ∧ s' = State (dt_path_list s) (io_log s ++ concat rounds).
Proof.
  revert op_file_dict s. induction l as [|dt l IH]; intros op_file_dict s H.
  - injection H as _ <-. exists []. split_and!; try constructor.
    simpl. rewrite app_nil_r. by destruct s.
  - simpl in H. bind_inv H as acc Hadd.
    apply add_to_op_file_dict_run_inv in Hadd
      as (h5_path & op & vms & vm_path & Hp & Hop & Hvms & Hvm & Hrm1 & Hrm2 & -> & ->).
    apply IH in H as (rounds & Hrounds & Hstripped & ->).
    eexists (_ :: rounds). split_and!.
    + constructor; [| done]. by exists h5_path, op, vm_path.
    + constructor; [by eauto | done].
    + simpl. by rewrite <-app_assoc.
Qed.

(** When the preparation returns, every datatype of the linked list had the
    key [parent_burst] removed from its file and from the file of its view
    model: the log grew by these rounds, one per datatype in list order, and
    [dt_path_list] is as it was. *)
Theorem manifest_strips_every_record data s all_datatypes op_file_dict s' :
  prepare_datatypes_for_export w data s = (Return (all_datatypes, op_file_dict), s') →
  ∃ rounds,
    Forall2 (record_events w) all_datatypes rounds
    ∧ Forall (λ dt, ∃ h5_path,
                path_for_stored_index w dt = Return h5_path
                ∧ remove_metadata w h5_path "parent_burst" = Return tt) all_datatypes
    ∧ io_log s' = io_log s ++ concat rounds
    ∧ dt_path_list s' = dt_path_list s.
Proof.
  intros (s0 & Hloop & ->)%prepare_Return_inv.
  apply for_fold_events in Hloop as (rounds & Hrounds & Hstripped & ->).
  by exists rounds.
Qed.

Lemma strip_parent_burst_logs path : logs_only is_strip_event (strip_parent_burst w path).
Proof.
  apply logs_only_bind; [by apply logs_only_log | intros _; apply logs_only_lift].
Qed.

Lemma add_to_op_file_dict_logs dt op_file_dict :
  logs_only is_strip_event (add_to_op_file_dict w dt op_file_dict).
Proof.
  unfold add_to_op_file_dict.
  apply logs_only_bind; [apply logs_only_lift | intros h5_path].
  apply logs_only_bind; [apply strip_parent_burst_logs | intros _]. simpl.
  apply logs_only_bind; [apply logs_only_lift | intros op_id].
  apply logs_only_bind; [apply logs_only_lift | intros op].
  apply logs_only_bind; [apply logs_only_lift | intros vm_gid].
  apply logs_only_bind; [by apply logs_only_log | intros _].
  apply logs_only_bind; [apply logs_only_lift | intros vms].
  apply logs_only_bind; [apply logs_only_lift | intros vm_path].
  apply logs_only_bind; [apply strip_parent_burst_logs | intros _].
  apply logs_only_ret.
Qed.

Lemma link_paired_group_logs data : logs_only is_strip_event (link_paired_group w data).
Proof.
  unfold link_paired_group.
  apply logs_only_bind; [apply logs_only_lift | intros all_datatypes].
  apply logs_only_bind; [apply logs_only_lift | intros first].
  destruct (hasattr fk_source_gid first);
    (apply logs_only_bind; [apply logs_only_lift | intros ?; apply logs_only_ret]).
Qed.

(** Whatever its outcome, the preparation leaves [dt_path_list] alone and
    only adds to the log: removals of the key [parent_burst] and reads of
    view models.  It opens no datatype file for its references, removes no
    other key, and undoes nothing when it fails half way. *)
Theorem prepare_only_strips data s :
  ∃ events,
    (prepare_datatypes_for_export w data s).2
    = State (dt_path_list s) (io_log s ++ events)
    ∧ Forall is_strip_event events.
Proof.
  rewrite prepare_is_link_then_build.
  apply (logs_only_bind is_strip_event); [apply link_paired_group_logs |].
  intros all_datatypes. unfold build_op_file_dict.
  apply logs_only_bind; [| intros ?; apply logs_only_ret].
  apply logs_only_for_fold. apply add_to_op_file_dict_logs.
Qed.

End ManifestTheorems.

(** ** Further properties of the reference walk *)

Lemma extends_elem s s' p :
  extends s s' → p ∈ dt_path_list s → p ∈ dt_path_list s'.
Proof. intros (added & -> & _) Hp. apply elem_of_app. by left. Qed.

Lemma for_each_Return_visits {A} (l : list A) (body : A → M unit) s s' x :
  (∀ y, grows (body y)) →
  for_each l body s = (Return tt, s') →
  x ∈ l →
  ∃ s1 s2, extends s s1 ∧ body x s1 = (Return tt, s2) ∧ extends s2 s'.
Proof.
  intros Hgrows. revert s. induction l as [|y l IH]; intros s H Hin;
    [by apply elem_of_nil in Hin |].
  simpl in H. apply M_bind_Return_inv in H as ([] & s1 & Hy & H).
  apply elem_of_cons in Hin as [-> | Hin].
  - exists s, s1. split_and!; [apply extends_refl | done |].
    pose proof (grows_for_each l body Hgrows s1) as Hrest. by rewrite H in Hrest.
  - destruct (IH _ H Hin) as (sa & sb & Ha & Hx & Hb).
    exists sa, sb. split_and!; try done.
    eapply extends_trans; [| done].
    pose proof (Hgrows y s) as Hfirst. by rewrite Hy in Hfirst.
Qed.

Lemma for_each_returns {A} (l : list A) (body : A → M unit) :
  (∀ x, x ∈ l → ∀ s, ∃ s', body x s = (Return tt, s')) →
  ∀ s, ∃ s', for_each l body s = (Return tt, s').
Proof.
  induction l as [|x l IH]; intros Hbody s; [by exists s |].
  simpl. rewrite M_bind_unfold.
  destruct (Hbody x (list_elem_of_here _ _) s) as [s1 ->].
  apply IH. intros y Hy. apply Hbody. by apply list_elem_of_further.
Qed.

Lemma for_each_Return_ext {A} (l : list A) (body body' : A → M unit) s s' :
  (∀ x s1 s2, body x s1 = (Return tt, s2) → body' x s1 = (Return tt, s2)) →
  for_each l body s = (Return tt, s') →
  for_each l body' s = (Return tt, s').
Proof.
  intros Hext. revert s. induction l as [|x l IH]; intros s H; [done |].
  simpl in *. apply M_bind_Return_inv in H as ([] & s1 & Hx & H).
  rewrite M_bind_unfold, (Hext _ _ _ Hx). by apply IH.
Qed.

Lemma adds_only_ret {A} Q (a : A) : adds_only Q (mret a).
Proof. intros s p Hp. by left. Qed.

Lemma adds_only_raise {A} Q (e : exc) : adds_only Q (@raise A e).
Proof. intros s p Hp. by left. Qed.

Lemma adds_only_log Q ev : adds_only Q (log ev).
Proof. intros s p Hp. by left. Qed.

Lemma adds_only_bind {A B} Q (m : M A) (k : A → M B) :
  adds_only Q m → (∀ a, adds_only Q (k a)) → adds_only Q (m ≫= k).
Proof.
  intros Hm Hk s p. rewrite M_bind_unfold. specialize (Hm s p).
  destruct (m s) as [[e|a] s1]; [done |]. intros Hp.
  destruct (Hk a s1 p Hp) as [Hs1 | HQ]; [by apply Hm | by right].
Qed.

Lemma adds_only_bind_lift {A B} Q (r : res A) (k : A → M B) :
  (∀ a, r = Return a → adds_only Q (k a)) → adds_only Q (lift r ≫= k).
Proof.
  intros Hk s p. rewrite M_bind_lift. destruct r as [e|a]; [by left |].
  by apply Hk.
Qed.

Lemma adds_only_for_each {A} Q (l : list A) (body : A → M unit) :
  (∀ x, x ∈ l → adds_only Q (body x)) → adds_only Q (for_each l body).
Proof.
  induction l as [|x l IH]; intros Hbody; simpl; [apply adds_only_ret |].
  apply adds_only_bind; [apply Hbody, list_elem_of_here | intros _].
  apply IH. intros y Hy. apply Hbody. by apply list_elem_of_further.
Qed.

Lemma adds_only_append_if_absent {B} (Q : string → Prop) data_path (k : M B) :
  Q data_path →
  adds_only Q k →
  adds_only Q (present ← read_dt_path_list;
               (if bool_decide (data_path ∈ present) then mret tt
                else append_dt_path data_path);;
               k).
Proof.
  intros HQ Hk s p. rewrite M_bind_unfold. simpl. case_bool_decide as Hin.
  - apply Hk.
  - rewrite M_bind_unfold. simpl. intros Hp.
    destruct (Hk _ _ Hp) as [Hs1 | HQp]; [| by right]. simpl in Hs1.
    apply elem_of_app in Hs1 as [? | ->%list_elem_of_singleton]; [by left | by right].
Qed.

Section WalkClosure.
Context (w : World).

(** What the walk does for one reference of a file (lines 166-169). *)
Local Abbreviation visit depth :=
  (λ ref : string * option string,
     match ref.2 with
     | None => mret tt
     | Some ref_gid =>
         if bool_decide (ref_gid = "") then mret tt
         else dt ← lift (load_entity_by_gid w ref_gid);
              gather_datatypes_for_copy w depth dt
     end).

Lemma gather_S depth data s :
  gather_datatypes_for_copy w (S depth) data s
  = match path_for_stored_index w data with
    | Raise e => (Raise e, s)
    | Return data_path =>
        let s1 := State (if bool_decide (data_path ∈ dt_path_list s)
                         then dt_path_list s
                         else dt_path_list s ++ [data_path])
                        (io_log s ++ [OpenH5 data_path]) in
        match gather_references w data_path with
        | Raise e => (Raise e, s1)
        | Return sub_dt_refs => for_each sub_dt_refs (visit depth) s1
        end
    end.
Proof.
  simpl. rewrite M_bind_lift. destruct (path_for_stored_index w data) as [e|data_path];
    [done |].
  rewrite M_bind_unfold. simpl.
  case_bool_decide; do 2 (rewrite M_bind_unfold; simpl); rewrite M_bind_lift;
    by destruct (gather_references w data_path).
Qed.

Lemma visit_grows depth ref : grows (visit depth ref).
Proof.
  destruct ref as [name [ref_gid|]]; simpl; [| apply grows_ret].
  case_bool_decide; [apply grows_ret |].
  apply grows_bind; [apply grows_lift | intros dt; apply gather_grows].
Qed.

Lemma visit_Return_inv depth name ref_gid s s' :
  ref_gid ≠ "" →
  visit depth (name, Some ref_gid) s = (Return tt, s') →
  ∃ dt, load_entity_by_gid w ref_gid = Return dt
        ∧ gather_datatypes_for_copy w depth dt s = (Return tt, s').
Proof.
  intros Hgid. simpl. rewrite (bool_decide_eq_false_2 _ Hgid), M_bind_lift.
  destruct (load_entity_by_gid w ref_gid) as [e|dt]; [done | by eauto].
Qed.

(** When the walk returns, the list holds the path of every datatype that
    can be reached from [data] through references: the files to copy are
    closed under reference. *)
Theorem gather_collects_reachable depth data s s' dt :
  gather_datatypes_for_copy w depth data s = (Return tt, s') →
  reaches w data dt →
  ∃ dt_path, path_for_stored_index w dt = Return dt_path
             ∧ dt_path ∈ dt_path_list s'.
Proof.
  intros Hrun Hreach. revert depth s s' Hrun.
  induction Hreach as [data | data data_path sub_dt_refs name ref_gid dt dt'
                                Hpath Hrefs Hin Hgid Hload Hreach IH];
    intros [|depth] s s' Hrun; try discriminate;
    rewrite gather_S in Hrun.
  - destruct (path_for_stored_index w data) as [e|data_path]; [discriminate |].
    simpl in Hrun.
    destruct (gather_references w data_path) as [e|sub_dt_refs]; [discriminate |].
    exists data_path. split; [done |].
    match type of Hrun with
    | for_each _ _ ?s1 = _ =>
        pose proof (grows_for_each sub_dt_refs (visit depth) (visit_grows depth) s1)
          as Hrest
    end.
    rewrite Hrun in Hrest. eapply extends_elem; [exact Hrest |]. simpl.
    case_bool_decide; [done |]. apply elem_of_app. right. apply list_elem_of_here.
  - rewrite Hpath in Hrun. simpl in Hrun. rewrite Hrefs in Hrun.
    destruct (for_each_Return_visits _ _ _ _ _ (visit_grows depth) Hrun Hin)
      as (s1 & s2 & _ & Hvisit & Hafter).
    apply visit_Return_inv in Hvisit as (dt0 & Hload0 & Hsub); [| done].
    rewrite Hload in Hload0. injection Hload0 as <-.
    destruct (IH _ _ _ Hsub) as (dt_path & Hdt & Hdt_in).
    exists dt_path. split; [done |]. by eapply extends_elem.
Qed.

Lemma gather_adds_only depth data :
  adds_only (λ p, ∃ dt, reaches w data dt ∧ path_for_stored_index w dt = Return p)
            (gather_datatypes_for_copy w depth data).
Proof.
  revert data. induction depth as [|depth IH]; intros data; simpl.
  - apply adds_only_raise.
  - apply adds_only_bind_lift. intros data_path Hpath.
    apply adds_only_append_if_absent.
    { exists data. split; [constructor | done]. }
    apply adds_only_bind; [apply adds_only_log | intros _].
    apply adds_only_bind_lift. intros sub_dt_refs Hrefs.
    apply adds_only_for_each. intros [name [ref_gid|]] Hin; simpl;
      [| apply adds_only_ret].
    case_bool_decide as Hgid; [apply adds_only_ret |].
    apply adds_only_bind_lift. intros dt Hload s p Hp.
    destruct (IH dt s p Hp) as [? | (dt' & Hreach & Hdt')]; [by left |].
    right. exists dt'. split; [| done]. by eapply reaches_ref.
Qed.

(** Whatever its outcome, the walk adds to the list only paths of
    datatypes that can be reached from [data] through references. *)
Theorem gather_adds_only_reachable depth data s p :
  p ∈ dt_path_list (gather_datatypes_for_copy w depth data s).2 →
  p ∈ dt_path_list s
  ∨ ∃ dt, reaches w data dt ∧ path_for_stored_index w dt = Return p.
Proof. apply gather_adds_only. Qed.

(** Where the references below [data] can be followed and end after fewer
    than [height] steps, the walk returns at every depth from [height] on. *)
Theorem gather_returns_when_walkable height data depth s :
  walkable w height data →
  height ≤ depth →
  ∃ s', gather_datatypes_for_copy w depth data s = (Return tt, s').
Proof.
  revert data depth s. induction height as [|height IH]; intros data depth s Hwalk Hle;
    [done |].
  destruct depth as [|depth]; [lia |].
  destruct Hwalk as (data_path & sub_dt_refs & Hpath & Hrefs & Hsub).
  rewrite gather_S, Hpath. simpl. rewrite Hrefs.
  apply for_each_returns. intros [name [ref_gid|]] Hin s1; simpl; [| by eauto].
  case_bool_decide as Hgid; [by eauto |].
  destruct (Hsub _ _ Hin Hgid) as (dt & Hload & Hdt).
  rewrite M_bind_lift, Hload. apply IH; [done | lia].
Qed.

(** A walk that returns does not depend on the depth it was granted: with
    one more frame it returns the same list and the same log. *)
Theorem gather_depth_monotone depth data s s' :
  gather_datatypes_for_copy w depth data s = (Return tt, s') →
  gather_datatypes_for_copy w (S depth) data s = (Return tt, s').
Proof.
  revert data s s'. induction depth as [|depth IH]; intros data s s' Hrun;
    [discriminate |].
  rewrite gather_S in Hrun. rewrite gather_S.
  destruct (path_for_stored_index w data) as [e|data_path]; [discriminate |].
  cbv beta iota zeta in Hrun |- *.
  destruct (gather_references w data_path) as [e|sub_dt_refs]; [discriminate |].
  eapply for_each_Return_ext; [| exact Hrun].
  intros [name [ref_gid|]] s1 s2; cbn [snd]; [| done].
  destruct (bool_decide (ref_gid = "")); [done |]. rewrite !M_bind_lift.
  destruct (load_entity_by_gid w ref_gid) as [e|dt]; [done | apply IH].
Qed.

End WalkClosure.

Lemma opened_since_refl s : opened_since s s.
Proof. exists []. by rewrite app_nil_r. Qed.

Lemma opened_since_trans s1 s2 s3 :
  opened_since s1 s2 → extends s2 s3 → opened_since s2 s3 → opened_since s1 s3.
Proof.
  intros (ev1 & E1 & H1) Hext (ev2 & E2 & H2). exists (ev1 ++ ev2). split.
  - by rewrite E2, E1, <-app_assoc.
  - apply Forall_app. split; [| done].
    eapply Forall_impl; [exact H1 |]. intros ev (p & -> & Hp).
    exists p. split; [done |]. by eapply extends_elem.
Qed.

Lemma reads_only_for_each {A} (l : list A) (body : A → M unit) :
  (∀ x, reads_only (body x)) → (∀ x, grows (body x)) → reads_only (for_each l body).
Proof.
  intros Hreads Hgrows. induction l as [|x l IH]; intros s; simpl.
  - apply opened_since_refl.
  - rewrite M_bind_unfold. pose proof (Hreads x s) as Hx.
    destruct (body x s) as [[e|[]] s1]; [done |].
    eapply opened_since_trans; [exact Hx | | apply IH].
    apply (grows_for_each l body Hgrows s1).
Qed.

Section WalkReads.
Context (w : World).

Lemma gather_reads_only depth data : reads_only (gather_datatypes_for_copy w depth data).
Proof.
  revert data. induction depth as [|depth IH]; intros data s.
  { apply opened_since_refl. }
  rewrite gather_S.
  destruct (path_for_stored_index w data) as [e|data_path]; [apply opened_since_refl |].
  cbv beta iota zeta.
  set (s1 := State _ _).
  assert (opened_since s s1) as Hs1.
  { exists [OpenH5 data_path]. split; [done |]. constructor; [| done].
    exists data_path. split; [done |]. simpl.
    case_bool_decide; [done |]. apply elem_of_app. right. apply list_elem_of_here. }
  destruct (gather_references w data_path) as [e|sub_dt_refs]; [done |].
  eapply opened_since_trans; [exact Hs1 | |].
  - apply grows_for_each. intros ref. apply (visit_grows w depth ref).
  - apply reads_only_for_each; [| intros ref; apply (visit_grows w depth ref)].
    intros [name [ref_gid|]] s2; cbn [snd]; [| apply opened_since_refl].
    destruct (bool_decide (ref_gid = "")); [apply opened_since_refl |].
    rewrite M_bind_lift.
    destruct (load_entity_by_gid w ref_gid) as [e|dt]; [apply opened_since_refl | apply IH].
Qed.

(** The walk only reads: whatever its outcome, all it adds to the log are
    openings of files, and the path of every file it opened is in the
    list. *)
Theorem gather_only_opens depth data s :
  ∃ events,
    io_log (gather_datatypes_for_copy w depth data s).2 = io_log s ++ events
    ∧ Forall (λ ev, ∃ p, ev = OpenH5 p
                         ∧ p ∈ dt_path_list (gather_datatypes_for_copy w depth data s).2)
             events.
Proof. apply gather_reads_only. Qed.

End WalkReads.

(** ** Export file names *)

Lemma digit_inj a b : digit a = digit b → (a mod 10 = b mod 10)%Z.
Proof.
  unfold digit. intros H. apply (f_equal N_of_ascii) in H.
  pose proof (Z.mod_pos_bound a 10). pose proof (Z.mod_pos_bound b 10).
  rewrite !N_ascii_embedding in H by lia. lia.
Qed.

Lemma two_digits_inj a b :
  (0 ≤ a < 100)%Z → (0 ≤ b < 100)%Z →
  digit (a / 10) = digit (b / 10) → digit a = digit b → a = b.
Proof.
  intros Ha Hb Htens%digit_inj Hunits%digit_inj. Z.div_mod_to_equations. lia.
Qed.

Lemma four_digits_inj a b :
  (0 ≤ a < 10000)%Z → (0 ≤ b < 10000)%Z →
  digit (a / 1000) = digit (b / 1000) → digit (a / 100) = digit (b / 100) →
  digit (a / 10) = digit (b / 10) → digit a = digit b → a = b.
Proof.
  intros Ha Hb H1000%digit_inj H100%digit_inj H10%digit_inj H1%digit_inj.
  Z.div_mod_to_equations. lia.
Qed.

(** The name of an export file tells the minute of the export and no more:
    for datatypes of one class and one extension, two dates of the calendar
    give the same name exactly when they lie in the same minute. *)
Theorem export_file_name_minute now now' data file_extension :
  on_calendar now →
  on_calendar now' →
  get_export_file_name now data file_extension
  = get_export_file_name now' data file_extension
  ↔ same_minute now now'.
Proof.
  intros Hnow Hnow'. unfold on_calendar in *. split.
  - unfold get_export_file_name, strftime_minute, four_digits, two_digits. simpl.
    intros [= Y3 Y2 Y1 Y0 M1 M0 D1 D0 H1 H0 Min1 Min0].
    repeat split.
    + apply four_digits_inj; (done || lia).
    + apply two_digits_inj; (done || lia).
    + apply two_digits_inj; (done || lia).
    + apply two_digits_inj; (done || lia).
    + apply two_digits_inj; (done || lia).
  - intros (Hy & Hm & Hd & Hh & Hmin).
    unfold get_export_file_name, strftime_minute.
    by rewrite Hy, Hm, Hd, Hh, Hmin.
Qed.

(** ** The further properties on the example stores *)

Import MoreExamples.

Lemma accepts_raise_origin_witness :
  ∃ g, PyObj ORPHAN_GROUP = PyObj g
       ∧ is_data_a_group (PyObj ORPHAN_GROUP) = true
       ∧ skip_group_datatypes any_time_series = false
       ∧ (get_datatypes_from_datatype_group orphans_strict (id_ g)
          = Raise (CollaboratorError "load_entity_by_gid")
          ∨ ∃ first rest,
              get_datatypes_from_datatype_group orphans_strict (id_ g)
              = Return (Some (first :: rest))
              ∧ load_entity_by_gid orphans_strict first
                = Raise (CollaboratorError "load_entity_by_gid")).
Proof.
  apply (accepts_raise_origin orphans_strict any_time_series (PyObj ORPHAN_GROUP)).
  reflexivity.
Defined.

Lemma accepts_dangling_first_member_witness :
  accepts orphans_lenient any_time_series (PyObj ORPHAN_GROUP) = Return false.
Proof.
  apply (accepts_dangling_first_member orphans_lenient any_time_series
           ORPHAN_GROUP "gone" ["ts0"]).
  - reflexivity.
  - reflexivity.
  - reflexivity.
  - reflexivity.
Defined.

Lemma time_series_among_supported :
  get_supported_types any_time_series ⊆ get_supported_types time_series_and_measures.
Proof.
  intros c Hc. apply list_elem_of_singleton in Hc as ->.
  apply list_elem_of_further, list_elem_of_here.
Qed.

Lemma accepts_monotone_witness :
  accepts sweep time_series_and_measures (PyObj TS_GROUP) = Return true.
Proof.
  apply (accepts_monotone sweep any_time_series time_series_and_measures).
  - reflexivity.
  - apply time_series_among_supported.
  - reflexivity.
Defined.

Lemma effective_is_head_of_flattening_witness :
  _get_effective_data_type sweep any_time_series (PyObj TS_GROUP)
  = Return (default PyNone (head [PyObj TS0; PyObj TS1])).
Proof.
  apply (effective_is_head_of_flattening sweep any_time_series (PyObj TS_GROUP)).
  - reflexivity.
  - reflexivity.
Defined.

Lemma flatten_raise_origin_witness :
  ∃ g, PyObj STALE_GROUP = PyObj g
       ∧ is_data_a_group (PyObj STALE_GROUP) = true
       ∧ (get_datatypes_from_datatype_group strict (id_ g)
          = Raise (CollaboratorError "load_entity_by_gid")
          ∨ ∃ before row after,
              get_datatypes_from_datatype_group strict (id_ g)
              = Return (Some (before ++ row :: after))
              ∧ Forall (λ r, ∃ entity, load_entity_by_gid strict r = Return entity) before
              ∧ load_entity_by_gid strict row
                = Raise (CollaboratorError "load_entity_by_gid")).
Proof.
  apply (flatten_raise_origin strict (PyObj STALE_GROUP)). reflexivity.
Defined.

Lemma link_without_measure_group_witness :
  link_paired_group sweep (PyObj TS1) start
  = (Return ([PyObj TS1] ++ [PyNone]), start)
  ∧ (∀ e, path_for_stored_index sweep PyNone = Raise e →
          ∃ e', (prepare_datatypes_for_export sweep (PyObj TS1) start).1 = Raise e').
Proof.
  apply (link_without_measure_group sweep (PyObj TS1) TS1 [] start).
  - reflexivity.
  - reflexivity.
  - reflexivity.
Defined.

Lemma link_without_time_series_group_witness :
  link_paired_group single_run (PyObj LONE_MEASURE) start
  = (Return [PyNone; PyObj LONE_MEASURE], start)
  ∧ (∀ e, path_for_stored_index single_run PyNone = Raise e →
          prepare_datatypes_for_export single_run (PyObj LONE_MEASURE) start
          = (Raise e, start)).
Proof.
  apply (link_without_time_series_group single_run (PyObj LONE_MEASURE)
           LONE_MEASURE [] (Some "lone") LONE_SERIES start).
  - reflexivity.
  - reflexivity.
  - reflexivity.
  - reflexivity.
Defined.

Lemma manifest_folders_witness :
  ∃ paths,
    Forall2 (λ dt h5_path, path_for_stored_index sweep dt = Return h5_path)
            [PyObj TS0; PyObj TS1; PyObj MEASURE0] paths
    ∧ dom MANIFEST_M0 = list_to_set (dirname sweep <$> paths).
Proof.
  apply (manifest_folders sweep (PyObj MEASURE0) start
           [PyObj TS0; PyObj TS1; PyObj MEASURE0] MANIFEST_M0
           (prepare_datatypes_for_export sweep (PyObj MEASURE0) start).2).
  apply sweep_manifest_of_measure.
Defined.

Lemma one_folder_manifest :
  prepare_datatypes_for_export one_folder (PyObj PAIR_GROUP) start
  = (Return ([PyObj TS0] ++ PyObj TS0_HISTORY :: [PyObj MEASURE0; PyObj MEASURE1],
             MANIFEST_PAIR),
     (prepare_datatypes_for_export one_folder (PyObj PAIR_GROUP) start).2).
Proof. vm_compute. reflexivity. Qed.

Lemma one_folder_measures_elsewhere dt' h5_path' :
  dt' ∈ [PyObj MEASURE0; PyObj MEASURE1] →
  path_for_stored_index one_folder dt' = Return h5_path' →
  dirname one_folder h5_path' ≠ dirname one_folder "/TVB/PROJECTS/demo/10/ts0h.h5".
Proof.
  intros [-> | [-> | []%elem_of_nil]%elem_of_cons]%elem_of_cons [= <-]; discriminate.
Qed.

Lemma manifest_last_record_wins_witness :
  ∃ op vms,
    (getattr fk_from_operation (PyObj TS0_HISTORY) ≫= get_operation_by_id one_folder)
    = Return (Some op)
    ∧ gather_references_of_view_model one_folder (view_model_gid op)
        (dirname one_folder "/TVB/PROJECTS/demo/10/ts0h.h5") = Return vms
    ∧ MANIFEST_PAIR !! dirname one_folder "/TVB/PROJECTS/demo/10/ts0h.h5"
      = Some ("/TVB/PROJECTS/demo/10/ts0h.h5" :: vms.1).
Proof.
  apply (manifest_last_record_wins one_folder (PyObj PAIR_GROUP) start
           [PyObj TS0] (PyObj TS0_HISTORY) [PyObj MEASURE0; PyObj MEASURE1]
           MANIFEST_PAIR
           (prepare_datatypes_for_export one_folder (PyObj PAIR_GROUP) start).2).
  - apply one_folder_manifest.
  - reflexivity.
  - apply one_folder_measures_elsewhere.
Defined.

Lemma manifest_strips_every_record_witness :
  ∃ rounds,
    Forall2 (record_events sweep) [PyObj TS0; PyObj TS1; PyObj MEASURE0] rounds
    ∧ Forall (λ dt, ∃ h5_path,
                path_for_stored_index sweep dt = Return h5_path
                ∧ remove_metadata sweep h5_path "parent_burst" = Return tt)
             [PyObj TS0; PyObj TS1; PyObj MEASURE0]
    ∧ io_log (prepare_datatypes_for_export sweep (PyObj MEASURE0) start).2
      = io_log start ++ concat rounds
    ∧ dt_path_list (prepare_datatypes_for_export sweep (PyObj MEASURE0) start).2
      = dt_path_list start.
Proof.
  apply (manifest_strips_every_record sweep (PyObj MEASURE0) start
           [PyObj TS0; PyObj TS1; PyObj MEASURE0] MANIFEST_M0).
  apply sweep_manifest_of_measure.
Defined.

Lemma diamond_series_refs :
  ("region_mapping", Some "mapping")
    ∈ [("region_mapping", Some "mapping"); ("sensors", @None string);
       ("connectivity", Some "conn")].
Proof. apply list_elem_of_here. Qed.

Lemma diamond_mapping_refs :
  ("connectivity", Some "conn")
    ∈ [("connectivity", Some "conn"); ("surface", Some "")].
Proof. apply list_elem_of_here. Qed.

Lemma diamond_reaches_connectivity :
  reaches diamond (PyObj SERIES) (PyObj CONNECTIVITY).
Proof.
  eapply (reaches_ref diamond (PyObj SERIES) PATH_SERIES _ _ "mapping" (PyObj MAPPING));
    [reflexivity | reflexivity | apply diamond_series_refs | discriminate | reflexivity |].
  eapply (reaches_ref diamond (PyObj MAPPING) PATH_MAPPING _ _ "conn" (PyObj CONNECTIVITY));
    [reflexivity | reflexivity | apply diamond_mapping_refs | discriminate | reflexivity |].
  apply reaches_here.
Qed.

Lemma diamond_walkable : walkable diamond 3 (PyObj SERIES).
Proof.
  assert (walkable diamond 1 (PyObj CONNECTIVITY)) as Hconn.
  { exists PATH_CONNECTIVITY, []. split_and!; [done | done |].
    by intros name ref_gid []%elem_of_nil. }
  assert (walkable diamond 2 (PyObj CONNECTIVITY)) as Hconn2.
  { exists PATH_CONNECTIVITY, []. split_and!; [done | done |].
    by intros name ref_gid []%elem_of_nil. }
  assert (walkable diamond 2 (PyObj MAPPING)) as Hmap.
  { eexists PATH_MAPPING, _. split_and!; [done | done |].
    intros name ref_gid Hin Hgid.
    apply elem_of_cons in Hin as [[= -> ->] | Hin]; [by exists (PyObj CONNECTIVITY) |].
    apply elem_of_cons in Hin as [[= -> ->] | []%elem_of_nil]. done. }
  eexists PATH_SERIES, _. split_and!; [done | done |].
  intros name ref_gid Hin Hgid.
  apply elem_of_cons in Hin as [[= -> ->] | Hin]; [by exists (PyObj MAPPING) |].
  apply elem_of_cons in Hin as [[=] | Hin].
  apply elem_of_cons in Hin as [[= -> ->] | []%elem_of_nil].
  by exists (PyObj CONNECTIVITY).
Qed.

Lemma gather_collects_reachable_witness :
  ∃ dt_path,
    path_for_stored_index diamond (PyObj CONNECTIVITY) = Return dt_path
    ∧ dt_path ∈ dt_path_list (gather_datatypes_for_copy diamond 3 (PyObj SERIES) start).2.
Proof.
  apply (gather_collects_reachable diamond 3 (PyObj SERIES) start
           (gather_datatypes_for_copy diamond 3 (PyObj SERIES) start).2
           (PyObj CONNECTIVITY)).
  - reflexivity.
  - apply diamond_reaches_connectivity.
Defined.

Lemma diamond_mapping_recorded :
  PATH_MAPPING
    ∈ dt_path_list (gather_datatypes_for_copy diamond 2 (PyObj SERIES) start).2.
Proof. apply list_elem_of_further, list_elem_of_here. Qed.

Lemma gather_adds_only_reachable_witness :
  PATH_MAPPING ∈ dt_path_list start
  ∨ ∃ dt, reaches diamond (PyObj SERIES) dt
          ∧ path_for_stored_index diamond dt = Return PATH_MAPPING.
Proof.
  apply (gather_adds_only_reachable diamond 2 (PyObj SERIES) start PATH_MAPPING).
  apply diamond_mapping_recorded.
Defined.

Lemma gather_returns_when_walkable_witness :
  ∃ s', gather_datatypes_for_copy diamond 5 (PyObj SERIES) start = (Return tt, s').
Proof.
  apply (gather_returns_when_walkable diamond 3 (PyObj SERIES) 5 start).
  - apply diamond_walkable.
  - lia.
Defined.

Lemma gather_depth_monotone_witness :
  gather_datatypes_for_copy diamond 4 (PyObj SERIES) start
  = (Return tt, (gather_datatypes_for_copy diamond 3 (PyObj SERIES) start).2).
Proof.
  apply (gather_depth_monotone diamond 3 (PyObj SERIES) start). reflexivity.
Defined.

Lemma calendar_mornings : on_calendar MORNING ∧ on_calendar MORNING_LATER.
Proof. unfold on_calendar. simpl. lia. Qed.

Lemma export_file_name_minute_witness :
  get_export_file_name MORNING (PyObj TS0) ".h5"
  = get_export_file_name MORNING_LATER (PyObj TS0) ".h5"
  ↔ same_minute MORNING MORNING_LATER.
Proof.
  apply (export_file_name_minute MORNING MORNING_LATER (PyObj TS0) ".h5").
  - apply calendar_mornings.
  - apply calendar_mornings.
Defined.

(** ** The order of the linked list, and lists without duplicates *)

Section LinkOrder.
Context (w : World).







End LinkOrder.






